(** * Phase state machine and conversation session of the code-generation
      orchestrator: a shallow embedding and its verified properties.

    The development follows the TypeScript sources:
    - [worker/agents/core/state.ts]               -> [Module State]
    - [worker/services/.../FileManager]           -> [Module FileManager]
    - [worker/agents/core/simpleGeneratorAgent.ts] -> [Module Agent]
    - [worker/agents/tools/toolkit/deep-debugger.ts] -> [Module DeepDebugTool]
    - [worker/agents/assistants/codeDebugger.ts]  -> [Module DeepCodeDebugger]
    - [worker/agents/core/stateMigration.ts]      -> [Module StateMigration]

    JavaScript objects used as dictionaries are [gmap string _]; optional
    properties are [option]; [number] counters are [Z]; a thrown exception is
    an explicit outcome of the function that throws. *)

From stdpp Require Import base option list strings pretty gmap.
From Stdlib Require Import ZArith Bool Ascii Lia Sorted.

Open Scope string_scope.
Open Scope list_scope.
Open Scope Z_scope.

(** JavaScript truthiness of a string: the empty string is falsy. *)
Definition truthy (s : string) : bool := negb (String.eqb s "").

(** [a || b] on strings. *)
Definition or_else (a b : string) : string := if truthy a then a else b.

(* ------------------------------------------------------------------ *)
(** ** Schemas and persisted state ([schemas], [state.ts]) *)
(* ------------------------------------------------------------------ *)

Module State.

Record FileOutputType := mkFile {
  filePath : string;
  fileContents : string;
  filePurpose : string }.

(** [FileState extends FileOutputType]; the objects built by
    [saveGeneratedFiles] spread the file and add four properties. *)
Record FileState := mkFileState {
  file :> FileOutputType;
  lasthash : string;
  lastmodified : Z;
  unmerged : list string;
  lastDiff : string }.

Record FileConceptType := mkFileConcept {
  path : string;
  purpose : string;
  changes : option string }.

Record PhaseConceptType := mkPhase {
  name : string;
  description : string;
  files : list FileConceptType;
  lastPhase : bool }.

(** [PhaseState extends PhaseConceptType { completed }]. *)
Record PhaseState := mkPhaseState {
  concept :> PhaseConceptType;
  completed : bool }.

Inductive CurrentDevState :=
| IDLE | PHASE_GENERATING | PHASE_IMPLEMENTING | REVIEWING | FINALIZING.

Definition MAX_PHASES : Z := 12.

Inductive AgentMode := deterministic | smart.

Record ConversationMessage := mkMessage {
  role : string;
  conversationId : string;
  content : string }.

Record InferenceContext := mkInferenceContext {
  agentId : string;
  userId : string;
  enableRealtimeCodeFix : bool;
  enableFastSmartCodeFix : bool }.

End State.

Module Blueprint.
Record t := mk {
  title : string;
  projectName : string;
  description : string;
  frameworks : list string;
  initialPhase : State.PhaseConceptType }.

(** [{ ...blueprint, projectName: newName }] *)
Definition with_projectName (b : t) (newName : string) : t :=
  {| title := title b; projectName := newName; description := description b;
     frameworks := frameworks b; initialPhase := initialPhase b |}.
End Blueprint.

Module CodeGenState.
Import State.

Record t := mk {
  blueprint : Blueprint.t;
  projectName : string;
  query : string;
  generatedFilesMap : gmap string FileState;
  generatedPhases : list PhaseState;
  commandsHistory : list string;
  lastPackageJson : option string;
  templateName : string;
  sandboxInstanceId : option string;
  shouldBeGenerating : bool;
  mvpGenerated : bool;
  reviewingInitiated : bool;
  agentMode : AgentMode;
  sessionId : string;
  hostname : string;
  phasesCounter : Z;
  pendingUserInputs : list string;
  currentDevState : CurrentDevState;
  reviewCycles : option Z;
  currentPhase : option PhaseConceptType;
  conversationMessages : list ConversationMessage;
  projectUpdatesAccumulator : list string;
  inferenceContext : InferenceContext;
  lastDeepDebugTranscript : option string }.

(** The object spreads [{ ...this.state, field: value }] of the source,
    one per field that the modelled methods overwrite. *)
Definition with_blueprint (s : t) (v : Blueprint.t) : t :=
  mk v (projectName s) (query s) (generatedFilesMap s) (generatedPhases s)
     (commandsHistory s) (lastPackageJson s) (templateName s)
     (sandboxInstanceId s) (shouldBeGenerating s) (mvpGenerated s)
     (reviewingInitiated s) (agentMode s) (sessionId s) (hostname s)
     (phasesCounter s) (pendingUserInputs s) (currentDevState s)
     (reviewCycles s) (currentPhase s) (conversationMessages s)
     (projectUpdatesAccumulator s) (inferenceContext s)
     (lastDeepDebugTranscript s).

Definition with_generatedFilesMap (s : t) (v : gmap string FileState) : t :=
  mk (blueprint s) (projectName s) (query s) v (generatedPhases s)
     (commandsHistory s) (lastPackageJson s) (templateName s)
     (sandboxInstanceId s) (shouldBeGenerating s) (mvpGenerated s)
     (reviewingInitiated s) (agentMode s) (sessionId s) (hostname s)
     (phasesCounter s) (pendingUserInputs s) (currentDevState s)
     (reviewCycles s) (currentPhase s) (conversationMessages s)
     (projectUpdatesAccumulator s) (inferenceContext s)
     (lastDeepDebugTranscript s).

Definition with_generatedPhases (s : t) (v : list PhaseState) : t :=
  mk (blueprint s) (projectName s) (query s) (generatedFilesMap s) v
     (commandsHistory s) (lastPackageJson s) (templateName s)
     (sandboxInstanceId s) (shouldBeGenerating s) (mvpGenerated s)
     (reviewingInitiated s) (agentMode s) (sessionId s) (hostname s)
     (phasesCounter s) (pendingUserInputs s) (currentDevState s)
     (reviewCycles s) (currentPhase s) (conversationMessages s)
     (projectUpdatesAccumulator s) (inferenceContext s)
     (lastDeepDebugTranscript s).

Definition with_phasesCounter (s : t) (v : Z) : t :=
  mk (blueprint s) (projectName s) (query s) (generatedFilesMap s)
     (generatedPhases s) (commandsHistory s) (lastPackageJson s)
     (templateName s) (sandboxInstanceId s) (shouldBeGenerating s)
     (mvpGenerated s) (reviewingInitiated s) (agentMode s) (sessionId s)
     (hostname s) v (pendingUserInputs s) (currentDevState s)
     (reviewCycles s) (currentPhase s) (conversationMessages s)
     (projectUpdatesAccumulator s) (inferenceContext s)
     (lastDeepDebugTranscript s).

Definition with_pendingUserInputs (s : t) (v : list string) : t :=
  mk (blueprint s) (projectName s) (query s) (generatedFilesMap s)
     (generatedPhases s) (commandsHistory s) (lastPackageJson s)
     (templateName s) (sandboxInstanceId s) (shouldBeGenerating s)
     (mvpGenerated s) (reviewingInitiated s) (agentMode s) (sessionId s)
     (hostname s) (phasesCounter s) v (currentDevState s)
     (reviewCycles s) (currentPhase s) (conversationMessages s)
     (projectUpdatesAccumulator s) (inferenceContext s)
     (lastDeepDebugTranscript s).

Definition with_reviewCycles (s : t) (v : option Z) : t :=
  mk (blueprint s) (projectName s) (query s) (generatedFilesMap s)
     (generatedPhases s) (commandsHistory s) (lastPackageJson s)
     (templateName s) (sandboxInstanceId s) (shouldBeGenerating s)
     (mvpGenerated s) (reviewingInitiated s) (agentMode s) (sessionId s)
     (hostname s) (phasesCounter s) (pendingUserInputs s)
     (currentDevState s) v (currentPhase s) (conversationMessages s)
     (projectUpdatesAccumulator s) (inferenceContext s)
     (lastDeepDebugTranscript s).

Definition with_currentPhase (s : t) (v : option PhaseConceptType) : t :=
  mk (blueprint s) (projectName s) (query s) (generatedFilesMap s)
     (generatedPhases s) (commandsHistory s) (lastPackageJson s)
     (templateName s) (sandboxInstanceId s) (shouldBeGenerating s)
     (mvpGenerated s) (reviewingInitiated s) (agentMode s) (sessionId s)
     (hostname s) (phasesCounter s) (pendingUserInputs s)
     (currentDevState s) (reviewCycles s) v (conversationMessages s)
     (projectUpdatesAccumulator s) (inferenceContext s)
     (lastDeepDebugTranscript s).

Definition with_projectUpdatesAccumulator (s : t) (v : list string) : t :=
  mk (blueprint s) (projectName s) (query s) (generatedFilesMap s)
     (generatedPhases s) (commandsHistory s) (lastPackageJson s)
     (templateName s) (sandboxInstanceId s) (shouldBeGenerating s)
     (mvpGenerated s) (reviewingInitiated s) (agentMode s) (sessionId s)
     (hostname s) (phasesCounter s) (pendingUserInputs s)
     (currentDevState s) (reviewCycles s) (currentPhase s)
     (conversationMessages s) v (inferenceContext s)
     (lastDeepDebugTranscript s).

Definition with_lastDeepDebugTranscript (s : t) (v : option string) : t :=
  mk (blueprint s) (projectName s) (query s) (generatedFilesMap s)
     (generatedPhases s) (commandsHistory s) (lastPackageJson s)
     (templateName s) (sandboxInstanceId s) (shouldBeGenerating s)
     (mvpGenerated s) (reviewingInitiated s) (agentMode s) (sessionId s)
     (hostname s) (phasesCounter s) (pendingUserInputs s)
     (currentDevState s) (reviewCycles s) (currentPhase s)
     (conversationMessages s) (projectUpdatesAccumulator s)
     (inferenceContext s) v.

End CodeGenState.

(* ------------------------------------------------------------------ *)
(** ** Version control used by the file manager *)
(* ------------------------------------------------------------------ *)

Module Git.
Import State.

(** Modelled from the spec: the class [GitVersionControl] (imported from
    [worker/agents/git]), whose code is not available.  The spec describes
    it as a content-addressed store over the generated files with
    [commit(files, message)], [stage(files)] ("no commit") and
    [getAllFilesFromHead()] ("enumerates files at HEAD").  The model keeps
    the files at HEAD, the staged files and the commit messages. *)
Record Repo := mkRepo {
  head : gmap string string;
  index : gmap string string;
  log : list string }.

Definition write_all (files : list FileState) (m : gmap string string)
  : gmap string string :=
  foldl (fun acc (f : FileState) => <[filePath f := fileContents f]> acc) m files.

Definition stage (files : list FileState) (r : Repo) : Repo :=
  {| head := head r; index := write_all files (index r); log := log r |}.

Definition commit (files : list FileState) (message : string) (r : Repo) : Repo :=
  let idx := write_all files (index r) in
  {| head := idx; index := idx; log := message :: log r |}.

Definition getAllFilesFromHead (r : Repo) : gmap string string := head r.

(** The calls that the file manager issues, in order. *)
Inductive Call :=
| CallCommit (files : list FileState) (message : string)
| CallStage (files : list FileState).

Definition empty : Repo := {| head := ∅; index := ∅; log := [] |}.
End Git.

(* ------------------------------------------------------------------ *)
(** ** FileManager ([saveGeneratedFiles] and the lookups it uses) *)
(* ------------------------------------------------------------------ *)

Module FileManager.
Import State.

(** The [diff] package: [Diff.createPatch(fileName, old, new)].  [None]
    stands for a thrown exception, which [saveGeneratedFiles] catches. *)
Class DiffLib := createPatch : string -> string -> string -> option string.

(** [TemplateDetails.allFiles]. *)
Record TemplateDetails := mkTemplate {
  templateDetailsName : string;
  allFiles : gmap string string }.

(** What the file manager is constructed with and reads at each call:
    [getTemplateDetailsFunc] ([None]: it throws), the time source behind
    [Date.now()] (its reading at the i-th file of a call) and whether the
    git call of this invocation throws. *)
Record Env := mkEnv {
  getTemplateDetailsFunc : option TemplateDetails;
  now : nat -> Z;
  gitThrows : bool }.

Definition getGeneratedFile (st : CodeGenState.t) (p : string) : option FileState :=
  CodeGenState.generatedFilesMap st !! p.

Definition getTemplateFile (env : Env) (p : string) : option FileOutputType :=
  match getTemplateDetailsFunc env with
  | None => None
  | Some td =>
      match allFiles td !! p with
      | Some c =>
          if truthy c
          then Some {| filePath := p; fileContents := c;
                       filePurpose := "Bootstrapped template file" |}
          else None
      | None => None
      end
  end.

Definition getFile (env : Env) (st : CodeGenState.t) (p : string)
  : option FileOutputType :=
  match getGeneratedFile st p with
  | Some g => Some (file g)
  | None => getTemplateFile env p
  end.

(** The comparison base
    [oldFile?.fileContents ?? (this.getFile(path)?.fileContents || '')]. *)
Definition oldFileContents (env : Env) (st : CodeGenState.t)
    (filesMap : gmap string FileState) (p : string) : string :=
  match filesMap !! p with
  | Some oldFile => fileContents (file oldFile)
  | None =>
      match getFile env st p with
      | Some f => or_else (fileContents f) ""
      | None => ""
      end
  end.

Definition computeDiff `{DiffLib} (p old new : string) : string :=
  if String.eqb old new then ""
  else match createPatch p old new with
       | Some d => d
       | None => ""
       end.

(** One iteration of the [for (const file of files)] loop: the local
    copy [filesMap], the array [fileStates] and the number of files seen. *)
Definition saveOne `{DiffLib} (env : Env) (st : CodeGenState.t)
    (acc : gmap string FileState * list FileState * nat) (f : FileOutputType)
  : gmap string FileState * list FileState * nat :=
  let '(filesMap, fileStates, i) := acc in
  let old := oldFileContents env st filesMap (filePath f) in
  let fileState :=
    {| file := f; lasthash := ""; lastmodified := now env i;
       unmerged := []; lastDiff := computeDiff (filePath f) old (fileContents f) |} in
  (<[filePath f := fileState]> filesMap, fileStates ++ [fileState], S i).

Definition saveLoop `{DiffLib} (env : Env) (st : CodeGenState.t)
    (files : list FileOutputType) : gmap string FileState * list FileState * nat :=
  foldl (saveOne env st) (CodeGenState.generatedFilesMap st, [], 0%nat) files.

Definition shouldCommit (fileStates : list FileState) : bool :=
  (0 <? length fileStates)%nat
  && existsb (fun fs => negb (String.eqb (lastDiff fs) "")) fileStates.

(** [commitMessage?: string] is tested for truthiness. *)
Definition hasMessage (commitMessage : option string) : option string :=
  match commitMessage with
  | Some m => if truthy m then Some m else None
  | None => None
  end.

(** What a call leaves behind: the state, the repository, the returned
    array and the git calls it issued.  (The store may call back into
    [syncGeneratedFilesMapFromGit] after an operation; that callback is
    registered by the constructor and fired by the store, outside of this
    method.) *)
Record Saved := mkSaved {
  state : CodeGenState.t;
  repo : Git.Repo;
  result : list FileState;
  gitCalls : list Git.Call }.

Definition saveGeneratedFiles `{DiffLib} (env : Env)
    (st : CodeGenState.t) (r : Git.Repo)
    (files : list FileOutputType) (commitMessage : option string) : Saved :=
  let '(filesMap, fileStates, _) := saveLoop env st files in
  let st' := CodeGenState.with_generatedFilesMap st filesMap in
  if shouldCommit fileStates then
    match hasMessage commitMessage with
    | Some m =>
        {| state := st';
           repo := if gitThrows env then r else Git.commit fileStates m r;
           result := fileStates;
           gitCalls := [Git.CallCommit fileStates m] |}
    | None =>
        {| state := st';
           repo := if gitThrows env then r else Git.stage fileStates r;
           result := fileStates;
           gitCalls := [Git.CallStage fileStates] |}
    end
  else {| state := st'; repo := r; result := fileStates; gitCalls := [] |}.

Definition generatedFilesMap_of (s : Saved) : gmap string FileState :=
  CodeGenState.generatedFilesMap (state s).

(** Every file of [done] has an entry in the map, written from a file
    of [done] with the same path. *)
Definition covers (m : gmap string FileState) (done : list FileOutputType) : Prop :=
  ∀ f, f ∈ done →
    ∃ fs : FileState, m !! filePath f = Some fs ∧ file fs ∈ done
                      ∧ filePath (file fs) = filePath f.

(** The map holds, for every file of [F], an entry with that file's
    contents. *)
Definition upToDate (m : gmap string FileState) (F : list FileOutputType) : Prop :=
  ∀ f, f ∈ F →
    ∃ fs : FileState, m !! filePath f = Some fs
                      ∧ fileContents (file fs) = fileContents f.

(** Entries of [F] that name the same path carry the same contents
    (in particular: the paths of [F] are pairwise distinct). *)
Definition consistentPaths (F : list FileOutputType) : Prop :=
  ∀ f g, f ∈ F → g ∈ F → filePath f = filePath g → fileContents f = fileContents g.

(** [deleteFiles(filePaths)]: the listed paths leave the map. *)
Definition deleteFiles (filePaths : list string) (st : CodeGenState.t) : CodeGenState.t :=
  CodeGenState.with_generatedFilesMap st
    (foldl (fun m p => delete p m) (CodeGenState.generatedFilesMap st) filePaths).

(** [fileExists(path)] is [!!this.getGeneratedFile(path)]. *)
Definition fileExists (st : CodeGenState.t) (p : string) : bool :=
  match getGeneratedFile st p with Some _ => true | None => false end.



(** A concrete [DiffLib] for running the model: the header lines that
    [createPatch] always emits, followed by the old and the new text. *)
Definition headerDiff : DiffLib :=
  fun p old new =>
    Some ("Index: " +:+ p +:+ " --- " +:+ p +:+ " +++ " +:+ p
          +:+ " -" +:+ old +:+ " +" +:+ new).

End FileManager.

(* ------------------------------------------------------------------ *)
(** ** The application registry behind [AppService] *)
(* ------------------------------------------------------------------ *)

Module Registry.

(** Modelled from the spec: [AppService] (the persistent application
    registry), whose code is not available.  The spec lists
    [updateApp{status,title,...}] on the registry row of the app; the
    agent reads its boolean answer as "the row was updated".  The model
    keeps the row of this agent's app, if it was created. *)
Record Row := mkRow {
  title : string;
  status : string }.

Inductive Patch :=
| SetTitle (newTitle : string)
| SetStatus (newStatus : string).

Definition apply (p : Patch) (r : Row) : Row :=
  match p with
  | SetTitle s => {| title := s; status := status r |}
  | SetStatus s => {| title := title r; status := s |}
  end.

Definition updateApp (p : Patch) (row : option Row) : bool * option Row :=
  match row with
  | Some r => (true, Some (apply p r))
  | None => (false, None)
  end.

End Registry.

(* ------------------------------------------------------------------ *)
(** ** Messages broadcast to the connected clients *)
(* ------------------------------------------------------------------ *)

Module WebSocketMessageResponses.
Inductive t :=
| GENERATION_STARTED | GENERATION_COMPLETE | RATE_LIMIT_ERROR | ERROR
| PROJECT_NAME_UPDATED | PHASE_GENERATING | PHASE_GENERATED
| PHASE_IMPLEMENTING | PHASE_IMPLEMENTED.
End WebSocketMessageResponses.

(** A small pattern language for regular expressions of the shape
    [/^[...]{lo,hi}$/], the only shape the modelled code tests. *)
Module Pattern.
Inductive ClassItem :=
| Range (lo hi : ascii)
| Single (c : ascii).

Definition inItem (c : ascii) (i : ClassItem) : bool :=
  match i with
  | Range lo hi =>
      (nat_of_ascii lo <=? nat_of_ascii c)%nat
      && (nat_of_ascii c <=? nat_of_ascii hi)%nat
  | Single d => Ascii.eqb c d
  end.

Definition inClass (cls : list ClassItem) (c : ascii) : bool :=
  existsb (inItem c) cls.

(** [/^[cls]{lo,hi}$/.test(s)]: without the [m] flag [$] matches at the
    end of the input only, so the whole string is made of [lo] to [hi]
    characters of the class. *)
Definition test (cls : list ClassItem) (lo hi : nat) (s : string) : bool :=
  let cs := String.list_ascii_of_string s in
  forallb (inClass cls) cs
  && (lo <=? length cs)%nat && (length cs <=? hi)%nat.

Definition lowerChar (c : ascii) : ascii :=
  let n := nat_of_ascii c in
  if (65 <=? n)%nat && (n <=? 90)%nat then ascii_of_nat (n + 32) else c.

Definition toLowerCase (s : string) : string :=
  String.string_of_list_ascii (map lowerChar (String.list_ascii_of_string s)).

Definition isSpace (c : ascii) : bool :=
  let n := nat_of_ascii c in
  (n =? 32)%nat || ((9 <=? n)%nat && (n <=? 13)%nat).

Fixpoint dropSpaces (cs : list ascii) : list ascii :=
  match cs with
  | c :: rest => if isSpace c then dropSpaces rest else cs
  | [] => []
  end.

Definition trimStart (s : string) : string :=
  String.string_of_list_ascii (dropSpaces (String.list_ascii_of_string s)).

Definition trim (s : string) : string :=
  String.string_of_list_ascii
    (rev (dropSpaces (rev (dropSpaces (String.list_ascii_of_string s))))).
End Pattern.

(* ------------------------------------------------------------------ *)
(** ** The agent ([SimpleCodeGeneratorAgent]) *)
(* ------------------------------------------------------------------ *)

Module Agent.
Import State.
Module WS := WebSocketMessageResponses.

Record Broadcast := mkBroadcast {
  msgType : WS.t;
  message : option string;
  payload : option string }.

(** The agent object: the persisted [state], the in-memory fields and
    what the outside world has seen of it (the launched state-machine
    runs, the messages sent, the registry row, the rename requests sent
    to the sandbox).  A promise is identified by a number. *)
Record t := mk {
  state : CodeGenState.t;
  generationPromise : option nat;
  deepDebugPromise : option nat;
  pendingUserImages : list string;
  launched : list (nat * Z);
  outbox : list Broadcast;
  registry : option Registry.Row;
  sandboxRenames : list (string * string) }.

Definition with_state (a : t) (v : CodeGenState.t) : t :=
  mk v (generationPromise a) (deepDebugPromise a) (pendingUserImages a)
     (launched a) (outbox a) (registry a) (sandboxRenames a).
Definition with_generationPromise (a : t) (v : option nat) : t :=
  mk (state a) v (deepDebugPromise a) (pendingUserImages a) (launched a)
     (outbox a) (registry a) (sandboxRenames a).
Definition with_deepDebugPromise (a : t) (v : option nat) : t :=
  mk (state a) (generationPromise a) v (pendingUserImages a) (launched a)
     (outbox a) (registry a) (sandboxRenames a).
Definition with_pendingUserImages (a : t) (v : list string) : t :=
  mk (state a) (generationPromise a) (deepDebugPromise a) v (launched a)
     (outbox a) (registry a) (sandboxRenames a).
Definition with_launched (a : t) (v : list (nat * Z)) : t :=
  mk (state a) (generationPromise a) (deepDebugPromise a)
     (pendingUserImages a) v (outbox a) (registry a) (sandboxRenames a).
Definition with_outbox (a : t) (v : list Broadcast) : t :=
  mk (state a) (generationPromise a) (deepDebugPromise a)
     (pendingUserImages a) (launched a) v (registry a) (sandboxRenames a).
Definition with_registry (a : t) (v : option Registry.Row) : t :=
  mk (state a) (generationPromise a) (deepDebugPromise a)
     (pendingUserImages a) (launched a) (outbox a) v (sandboxRenames a).
Definition with_sandboxRenames (a : t) (v : list (string * string)) : t :=
  mk (state a) (generationPromise a) (deepDebugPromise a)
     (pendingUserImages a) (launched a) (outbox a) (registry a) v.

(** *** Methods that run to completion: a state and exception monad.
    A thrown exception keeps the effects made before it. *)
Inductive Thrown := RateLimitExceededError | OtherError.

Definition M (A : Type) : Type := t -> (A + Thrown) * t.

Definition ret {A} (x : A) : M A := fun a => (inl x, a).
Definition throw {A} (e : Thrown) : M A := fun a => (inr e, a).
Definition bind {A B} (m : M A) (k : A -> M B) : M B :=
  fun a => match m a with
           | (inl x, a') => k x a'
           | (inr e, a') => (inr e, a')
           end.
Definition tryCatch {A} (m : M A) (handler : Thrown -> M A) : M A :=
  fun a => match m a with
           | (inl x, a') => (inl x, a')
           | (inr e, a') => handler e a'
           end.
Definition getState : M CodeGenState.t := fun a => (inl (state a), a).
Definition setState (s : CodeGenState.t) : M unit :=
  fun a => (inl tt, with_state a s).
Definition getAgent : M t := fun a => (inl a, a).
Definition putAgent (a' : t) : M unit := fun _ => (inl tt, a').

Declare Scope agent_scope.
Delimit Scope agent_scope with agent.
Notation "'let!' x ':=' m 'in' k" := (bind m (fun x => k))
  (at level 10, x name, m at level 100, k at level 200) : agent_scope.
Notation "'run!' m 'in' k" := (bind m (fun _ => k))
  (at level 10, m at level 100, k at level 200) : agent_scope.
Open Scope agent_scope.

Record StaticAnalysisResponse := mkStaticAnalysis {
  success : bool;
  lint : list string;
  typecheck : list string }.

Record AllIssues := mkIssues {
  runtimeErrors : list string;
  staticAnalysis : StaticAnalysisResponse }.

Record UserContext := mkUserContext {
  suggestions : list string;
  images : list string }.

(** [PhaseConceptGenerationSchemaType]: a phase concept together with
    the install commands proposed for it. *)
Record PhaseConceptGeneration := mkPhaseGeneration {
  phase :> PhaseConceptType;
  installCommands : list string }.

(** The collaborators of the agent whose code is outside the modelled
    sources: the message classifier of the conversation processor,
    whether the template of [state.templateName] can be loaded, the
    sandbox client, the failure of the registry service, the issue
    fetchers, the two model-backed operations and the run of the deep
    debugger ([DeepCodeDebugger.run]: issue, previous transcript and
    runtime errors to transcript).  Each is free to change
    the agent and to throw. *)
Class Collaborators := mkCollaborators {
  isProjectUpdateType : WS.t -> bool;
  templateDetailsLoad : CodeGenState.t -> bool;
  sandboxUpdateProjectName : string -> string -> option bool;
  appServiceThrows : Registry.Patch -> bool;
  fetchAllIssues : bool -> M AllIssues;
  fetchRuntimeErrors : bool -> M (list string);
  planPhase : AllIssues -> option UserContext -> bool -> M PhaseConceptGeneration;
  runDebugger : string -> option string -> list string -> M string;
  generateAndDeploy :
    PhaseConceptType -> AllIssues -> option UserContext -> M unit }.

Section Methods.
Context `{Collaborators}.

Definition onProjectUpdate (msg : string) : M unit :=
  let! s := getState in
  setState (CodeGenState.with_projectUpdatesAccumulator s
              (CodeGenState.projectUpdatesAccumulator s ++ [msg])).

(** The default text of a message type ([msg as string]). *)
Definition typeName (ty : WS.t) : string :=
  match ty with
  | WS.GENERATION_STARTED => "generation_started"
  | WS.GENERATION_COMPLETE => "generation_complete"
  | WS.RATE_LIMIT_ERROR => "rate_limit_error"
  | WS.ERROR => "error"
  | WS.PROJECT_NAME_UPDATED => "project_name_updated"
  | WS.PHASE_GENERATING => "phase_generating"
  | WS.PHASE_GENERATED => "phase_generated"
  | WS.PHASE_IMPLEMENTING => "phase_implementing"
  | WS.PHASE_IMPLEMENTED => "phase_implemented"
  end.

Definition broadcast (ty : WS.t) (msg payload : option string) : M unit :=
  run! (if isProjectUpdateType ty
        then onProjectUpdate (default (typeName ty) msg)
        else ret tt) in
  let! a := getAgent in
  putAgent (with_outbox a (outbox a ++ [mkBroadcast ty msg payload])).

Definition broadcastError (context : string) : M unit :=
  broadcast WS.ERROR None (Some context).

(** **** Phase counter and user requests *)

Definition getPhasesCounter (s : CodeGenState.t) : Z :=
  CodeGenState.phasesCounter s.

Definition isCodeGenerating (a : t) : bool :=
  match generationPromise a with Some _ => true | None => false end.

Definition rechargePhasesCounter (max_phases : Z) : M unit :=
  let! s := getState in
  if getPhasesCounter s <=? max_phases
  then setState (CodeGenState.with_phasesCounter s max_phases)
  else ret tt.

Definition decrementPhasesCounter : M Z :=
  let! s := getState in
  let counter := getPhasesCounter s - 1 in
  run! setState (CodeGenState.with_phasesCounter s counter) in
  ret counter.

Definition queueUserRequest (request : string) (imgs : list string) : M unit :=
  run! rechargePhasesCounter 3 in
  let! s := getState in
  run! setState (CodeGenState.with_pendingUserInputs s
                   (CodeGenState.pendingUserInputs s ++ [request])) in
  if (0 <? length imgs)%nat
  then let! a := getAgent in
       putAgent (with_pendingUserImages a (pendingUserImages a ++ imgs))
  else ret tt.

Definition fetchPendingUserRequests : M (list string) :=
  let! s := getState in
  let inputs := CodeGenState.pendingUserInputs s in
  run! (if (0 <? length inputs)%nat
        then setState (CodeGenState.with_pendingUserInputs s [])
        else ret tt) in
  ret inputs.

Definition createNewIncompletePhase (phaseConcept : PhaseConceptType) : M unit :=
  let! s := getState in
  setState (CodeGenState.with_generatedPhases s
              (CodeGenState.generatedPhases s
                 ++ [{| concept := phaseConcept; completed := false |}])).

Definition markPhaseComplete (phaseName : string) : M unit :=
  let! s := getState in
  let phases := CodeGenState.generatedPhases s in
  if negb (existsb (fun p : PhaseState => String.eqb (name p) phaseName) phases)
  then ret tt
  else setState (CodeGenState.with_generatedPhases s
         (map (fun p : PhaseState =>
                 if String.eqb (name p) phaseName
                 then {| concept := concept p; completed := true |}
                 else p) phases)).

(** **** [generateAllFiles]: the guard in front of the state machine.

    An [async] method runs synchronously up to its first [await]; what
    the caller holds afterwards is a promise that is either already
    settled by the [return], or waits for another promise. *)
Inductive Async := Resolved | Awaiting (promise : nat).

(** What [launchStateMachine] does before its first [await]. *)
Definition launchSynchronously : M unit :=
  broadcast WS.GENERATION_STARTED (Some "Starting code generation") None.

(** [this.generationPromise = this.launchStateMachine(reviewCycles)]:
    the call starts a run, which executes up to its first [await], and the
    promise of the run is stored before anything else can execute. *)
Definition startStateMachine (reviewCycles : Z) (a : t) : nat * t :=
  let a1 := (launchSynchronously a).2 in
  let promise := length (launched a1) in
  (promise,
   with_generationPromise
     (with_launched a1 (launched a1 ++ [(promise, reviewCycles)]))
     (Some promise)).

Definition generateAllFiles (reviewCycles : Z) (a : t) : Async * t :=
  if CodeGenState.mvpGenerated (state a)
     && (length (CodeGenState.pendingUserInputs (state a)) =? 0)%nat
  then (Resolved, a)
  else if isCodeGenerating a
  then (Resolved, a)
  else let '(promise, a') := startStateMachine reviewCycles a in
       (Awaiting promise, a').

Definition waitForGeneration (a : t) : Async :=
  match generationPromise a with
  | Some promise => Awaiting promise
  | None => Resolved
  end.

(** **** [launchStateMachine]: the choice of the start state, made
    once the template details are there and before the loop. *)
Record Start := mkStart {
  startState : CurrentDevState;
  startPhase : option PhaseConceptType }.

Definition chooseStart : M Start :=
  let! s := getState in
  let generatedPhases := CodeGenState.generatedPhases s in
  let incompletedPhases :=
    List.filter (fun p : PhaseState => negb (completed p)) generatedPhases in
  if (0 <? length incompletedPhases)%nat then
    ret {| startState := PHASE_IMPLEMENTING;
           startPhase :=
             concept <$> incompletedPhases !! (length incompletedPhases - 1)%nat |}
  else if (0 <? length generatedPhases)%nat then
    ret {| startState := PHASE_GENERATING; startPhase := None |}
  else
    let phaseConcept := Blueprint.initialPhase (CodeGenState.blueprint s) in
    run! createNewIncompletePhase phaseConcept in
    ret {| startState := PHASE_IMPLEMENTING; startPhase := Some phaseConcept |}.

(** The start rule in the words of the specification, to compare
    [chooseStart] with: the last phase that is not completed, if any,
    is resumed; else, if any phase exists, planning goes on; else the
    blueprint's initial phase is recorded as incomplete and
    implemented. *)
Definition lastIncomplete (phases : list PhaseState) : option PhaseState :=
  List.find (fun p : PhaseState => negb (completed p)) (rev phases).

Definition startPerSpec (a : t) : Start * t :=
  let phases := CodeGenState.generatedPhases (state a) in
  match lastIncomplete phases with
  | Some p => ({| startState := PHASE_IMPLEMENTING;
                  startPhase := Some (concept p) |}, a)
  | None =>
      match phases with
      | _ :: _ => ({| startState := PHASE_GENERATING; startPhase := None |}, a)
      | [] =>
          let initial := Blueprint.initialPhase (CodeGenState.blueprint (state a)) in
          ({| startState := PHASE_IMPLEMENTING; startPhase := Some initial |},
           with_state a
             (CodeGenState.with_generatedPhases (state a)
                [{| concept := initial; completed := false |}]))
      end
  end.

(** [ensureTemplateDetails] fills the template cache kept in memory and
    throws when the template cannot be loaded. *)
Definition ensureTemplateDetails : M unit :=
  let! s := getState in
  if templateDetailsLoad s then ret tt else throw OtherError.

(** [launchStateMachine] from its first [await] to the loop. *)
Definition launchPrologue (reviewCycles : Z) : M Start :=
  run! ensureTemplateDetails in
  let! start := chooseStart in
  let! s := getState in
  run! setState (CodeGenState.with_reviewCycles s (Some reviewCycles)) in
  ret start.

(** The [finally] block of [launchStateMachine]. *)
Definition launchEpilogue : M unit :=
  let! a := getAgent in
  if appServiceThrows (Registry.SetStatus "completed")
  then throw OtherError
  else
    run! putAgent (with_generationPromise
                     (with_registry a
                        (snd (Registry.updateApp (Registry.SetStatus "completed")
                                (registry a))))
                     None) in
    broadcast WS.GENERATION_COMPLETE
      (Some "Code generation and review process completed.") None.

(** **** The two working states of the machine *)

Record PhaseExecutionResult := mkResult {
  currentDevState : CurrentDevState;
  result : option PhaseConceptType;
  resultStaticAnalysis : option StaticAnalysisResponse;
  resultUserContext : option UserContext }.

Definition deleteFiles (paths : list string) : M unit :=
  let! s := getState in
  setState (CodeGenState.with_generatedFilesMap s
              (foldl (fun m p => delete p m)
                     (CodeGenState.generatedFilesMap s) paths)).

(** [f.changes?.toLowerCase().trim() === 'delete'] (ASCII letters and
    ASCII white space). *)
Definition marksDelete (f : FileConceptType) : bool :=
  match changes f with
  | Some c => String.eqb (Pattern.trim (Pattern.toLowerCase c)) "delete"
  | None => false
  end.

Definition generateNextPhase (currentIssues : AllIssues)
    (userContext : option UserContext) : M (option PhaseConceptType) :=
  run! broadcast WS.PHASE_GENERATING (Some "Generating next phase") None in
  let! s := getState in
  let userSuggested :=
    match userContext with
    | Some uc => (0 <? length (suggestions uc))%nat && CodeGenState.mvpGenerated s
    | None => false
    end in
  let! planned := planPhase currentIssues userContext userSuggested in
  let filesToDelete := List.filter marksDelete (files planned) in
  run! (if (0 <? length filesToDelete)%nat
        then deleteFiles (map path filesToDelete)
        else ret tt) in
  if (length (files planned) =? 0)%nat then
    run! broadcast WS.PHASE_GENERATED
           (Some "No files generated for next phase") None in
    ret None
  else
    run! createNewIncompletePhase planned in
    run! broadcast WS.PHASE_GENERATED (Some "Generated next phase")
           (Some (name planned)) in
    ret (Some (phase planned)).

Definition executePhaseGeneration : M PhaseExecutionResult :=
  tryCatch
    (let! currentIssues := fetchAllIssues false in
     let! pendingUserInputs := fetchPendingUserRequests in
     let! a := getAgent in
     let userContext :=
       if (0 <? length pendingUserInputs)%nat
       then Some {| suggestions := pendingUserInputs;
                    images := pendingUserImages a |}
       else None in
     run! (match userContext with
           | Some uc =>
               if (0 <? length (suggestions uc))%nat
                  && (0 <? length (images uc))%nat
               then putAgent (with_pendingUserImages a [])
               else ret tt
           | None => ret tt
           end) in
     let! nextPhase := generateNextPhase currentIssues userContext in
     match nextPhase with
     | None =>
         ret {| currentDevState := FINALIZING; result := None;
                resultStaticAnalysis := None; resultUserContext := None |}
     | Some np =>
         let! s := getState in
         run! setState (CodeGenState.with_currentPhase s (Some np)) in
         ret {| currentDevState := PHASE_IMPLEMENTING; result := Some np;
                resultStaticAnalysis := Some (staticAnalysis currentIssues);
                resultUserContext := userContext |}
     end)
    (fun e =>
       match e with
       | RateLimitExceededError => throw RateLimitExceededError
       | OtherError =>
           run! broadcastError "Error generating phase" in
           ret {| currentDevState := IDLE; result := None;
                  resultStaticAnalysis := None; resultUserContext := None |}
       end).

(** [implementPhase]: everything between the [PHASE_IMPLEMENTING]
    broadcast and the completion mark (the model-backed operation, the
    save of the files, the commands, the deployment and the fixers) is
    the collaborator [generateAndDeploy]. *)
Definition implementPhase (ph : PhaseConceptType) (currentIssues : AllIssues)
    (userContext : option UserContext) : M unit :=
  run! broadcast WS.PHASE_IMPLEMENTING (Some "Implementing phase")
         (Some (name ph)) in
  run! generateAndDeploy ph currentIssues userContext in
  run! broadcast WS.PHASE_IMPLEMENTED
         (Some "Files generated successfully for phase") (Some (name ph)) in
  markPhaseComplete (name ph).

Definition hasSandbox (s : CodeGenState.t) : bool :=
  match CodeGenState.sandboxInstanceId s with
  | Some i => truthy i
  | None => false
  end.

(** First part of [executePhaseImplementation]: find the phase to
    implement; [None] when even phase generation gives none. *)
Definition resolvePhase (phaseConcept : option PhaseConceptType)
  : M (option PhaseConceptType) :=
  match phaseConcept with
  | Some p => ret (Some p)
  | None =>
      let! s := getState in
      match CodeGenState.currentPhase s with
      | Some p => ret (Some p)
      | None =>
          let! results := executePhaseGeneration in
          ret (result results)
      end
  end.

(** Second part: reset [currentPhase] and collect the issues. *)
Definition collectIssues (staticAnalysisCache : option StaticAnalysisResponse)
  : M AllIssues :=
  let! s := getState in
  run! setState (CodeGenState.with_currentPhase s None) in
  let! s := getState in
  if hasSandbox s then
    match staticAnalysisCache with
    | Some sa =>
        let! errs := fetchRuntimeErrors true in
        ret {| runtimeErrors := errs; staticAnalysis := sa |}
    | None => fetchAllIssues true
    end
  else
    ret {| runtimeErrors := [];
           staticAnalysis := {| success := true; lint := []; typecheck := [] |} |}.

(** Last part: the counter and the choice of the next state. *)
Definition afterImplementation (ph : PhaseConceptType)
    (staticAnalysisCache : option StaticAnalysisResponse)
  : M PhaseExecutionResult :=
  let! counter := decrementPhasesCounter in
  let! s := getState in
  if (lastPhase ph || (counter <=? 0))
     && (length (CodeGenState.pendingUserInputs s) =? 0)%nat
  then ret {| currentDevState := FINALIZING; result := None;
              resultStaticAnalysis := staticAnalysisCache;
              resultUserContext := None |}
  else ret {| currentDevState := PHASE_GENERATING; result := None;
              resultStaticAnalysis := staticAnalysisCache;
              resultUserContext := None |}.

Definition executePhaseImplementation (phaseConcept : option PhaseConceptType)
    (staticAnalysisCache : option StaticAnalysisResponse)
    (userContext : option UserContext) : M PhaseExecutionResult :=
  tryCatch
    (let! resolved := resolvePhase phaseConcept in
     match resolved with
     | None =>
         ret {| currentDevState := FINALIZING; result := None;
                resultStaticAnalysis := None; resultUserContext := None |}
     | Some ph =>
         let! currentIssues := collectIssues staticAnalysisCache in
         run! implementPhase ph currentIssues userContext in
         afterImplementation ph staticAnalysisCache
     end)
    (fun e =>
       match e with
       | RateLimitExceededError => throw RateLimitExceededError
       | OtherError =>
           ret {| currentDevState := IDLE; result := None;
                  resultStaticAnalysis := None; resultUserContext := None |}
       end).

(** **** Deep debugging *)

Inductive DeepDebugResult :=
| DebugSuccess (transcript : string)
| DebugFailure (error : string).

Definition isDeepDebugging (a : t) : bool :=
  match deepDebugPromise a with Some _ => true | None => false end.

(** The session body runs up to its first [await] before the promise
    is stored; the [finally] block clears the promise.  Only the presence
    of the promise is ever read. *)
Definition executeDeepDebug (issue : string) (focusPaths : list string)
  : M DeepDebugResult :=
  let! a := getAgent in
  run! putAgent (with_deepDebugPromise a (Some 0%nat)) in
  let! r :=
    tryCatch
      (let! s := getState in
       let previousTranscript := CodeGenState.lastDeepDebugTranscript s in
       let! errs := fetchRuntimeErrors true in
       let! out := runDebugger issue previousTranscript errs in
       let! s := getState in
       run! setState (CodeGenState.with_lastDeepDebugTranscript s (Some out)) in
       ret (DebugSuccess out))
      (fun _ => ret (DebugFailure "Deep debugger failed")) in
  let! a := getAgent in
  run! putAgent (with_deepDebugPromise a None) in
  ret r.

(** **** [updateProjectName] *)

Definition projectNameClass : list Pattern.ClassItem :=
  [Pattern.Range "a" "z"; Pattern.Range "0" "9";
   Pattern.Single "-"; Pattern.Single "_"].

(** [/^[a-z0-9-_]{3,50}$/.test(newName)] *)
Definition validProjectName (newName : string) : bool :=
  Pattern.test projectNameClass 3 50 newName.

Definition updateProjectName (newName : string) (a : t) : bool * t :=
  if negb (validProjectName newName) then (false, a)
  else
    let updatedBlueprint :=
      Blueprint.with_projectName (CodeGenState.blueprint (state a)) newName in
    let a1 := with_state a (CodeGenState.with_blueprint (state a) updatedBlueprint) in
    let '(ok, a2) :=
      match CodeGenState.sandboxInstanceId (state a1) with
      | Some i =>
          if truthy i then
            (default false (sandboxUpdateProjectName i newName),
             with_sandboxRenames a1 (sandboxRenames a1 ++ [(i, newName)]))
          else (true, a1)
      | None => (true, a1)
      end in
    let '(ok, a3) :=
      if appServiceThrows (Registry.SetTitle newName) then (false, a2)
      else
        let '(dbOk, row) :=
          Registry.updateApp (Registry.SetTitle newName) (registry a2) in
        (ok && dbOk, with_registry a2 row) in
    let '(_, a4) :=
      broadcast WS.PROJECT_NAME_UPDATED (Some "Project name updated")
        (Some newName) a3 in
    (ok, a4).

End Methods.
End Agent.

(* ------------------------------------------------------------------ *)
(** ** The [deep_debug] tool of the conversation ([deep-debugger.ts]) *)
(* ------------------------------------------------------------------ *)

Module DeepDebugTool.
Import Agent.

Inductive ToolResult :=
| Transcript (transcript : string)
| Error (error : string).

(** The closure created by [createDeepDebuggerTool]: its variable
    [callCount].  [buildTools] creates it anew for each conversation
    turn. *)
Record Tool := mkTool { callCount : nat }.

Definition createDeepDebuggerTool : Tool := {| callCount := 0 |}.

Definition CALL_LIMIT_EXCEEDED : string :=
  "CALL_LIMIT_EXCEEDED: You are only allowed to make a single deep_debug call per conversation turn. Ask user for permission before trying again.".
Definition GENERATION_IN_PROGRESS : string :=
  "GENERATION_IN_PROGRESS: Code generation is currently running. Use wait_for_generation tool, then retry deep_debug.".
Definition DEBUG_IN_PROGRESS : string :=
  "DEBUG_IN_PROGRESS: Another debug session is currently running. Wait for it to finish, and if it doesn't, solve the issue, Use wait_for_debug tool, then retry deep_debug.".

Definition implementation `{Collaborators} (issue : string)
    (focus_paths : list string) (tool : Tool) (a : Agent.t)
  : (ToolResult + Thrown) * Tool * Agent.t :=
  if (0 <? callCount tool)%nat then (inl (Error CALL_LIMIT_EXCEEDED), tool, a)
  else
    let tool' := {| callCount := S (callCount tool) |} in
    if isCodeGenerating a then (inl (Error GENERATION_IN_PROGRESS), tool', a)
    else if isDeepDebugging a then (inl (Error DEBUG_IN_PROGRESS), tool', a)
    else
      match executeDeepDebug issue focus_paths a with
      | (inl (DebugSuccess out), a') => (inl (Transcript out), tool', a')
      | (inl (DebugFailure e), a') => (inl (Error e), tool', a')
      | (inr e, a') => (inr e, tool', a')
      end.

(** What [wait_for_generation] leaves behind once [waitForGeneration]
    has settled: the run's [finally] block has cleared the promise. *)
Definition generationSettled (a : Agent.t) : Agent.t :=
  with_generationPromise a None.

End DeepDebugTool.

(* ------------------------------------------------------------------ *)
(** ** The deep debugger's repetition guard ([DeepCodeDebugger]) *)
(* ------------------------------------------------------------------ *)

Module DeepCodeDebugger.

Record ToolCallRecord := mkCall {
  toolName : string;
  args : string;
  timestamp : Z }.

Record LoopDetectionState := mkLoop {
  recentCalls : list ToolCallRecord;
  repetitionWarnings : nat }.

Inductive Message :=
| SystemMessage (content : string)
| UserMessage (content : string)
| AssistantMessage (content : string).

(** The debugger: its loop-detection state and the conversation it has
    saved. *)
Record t := mk {
  loopDetection : LoopDetectionState;
  history : list Message }.

Definition create : t :=
  {| loopDetection := {| recentCalls := []; repetitionWarnings := 0 |};
     history := [] |}.

Definition save (msgs : list Message) (d : t) : t :=
  {| loopDetection := loopDetection d; history := history d ++ msgs |}.

(** [argsStr] is [JSON.stringify(args)]; [now] is [Date.now()]. *)
Definition detectRepetition (name argsStr : string) (now : Z) (d : t) : bool * t :=
  let recent :=
    List.filter (fun call => now - timestamp call <? 600000)
                (recentCalls (loopDetection d)) in
  let matchingCalls :=
    List.filter (fun call => String.eqb (toolName call) name
                             && String.eqb (args call) argsStr) recent in
  let d' :=
    {| loopDetection :=
         {| recentCalls := recent ++ [mkCall name argsStr now];
            repetitionWarnings := repetitionWarnings (loopDetection d) |};
       history := history d |} in
  ((2 <=? length matchingCalls)%nat, d').

(** The head of the warning text; the advice that follows it in the
    source is constant. *)
Definition warningMessage (name : string) (count : nat) : string :=
  "CRITICAL: REPETITION DETECTED You just attempted to execute "
    +:+ name +:+ " with identical arguments for the "
    +:+ pretty count +:+ "th time.".

Definition injectLoopWarning (name : string) (d : t) : t :=
  let n := S (repetitionWarnings (loopDetection d)) in
  save [UserMessage (warningMessage name n)]
    {| loopDetection :=
         {| recentCalls := recentCalls (loopDetection d);
            repetitionWarnings := n |};
       history := history d |}.

(** The wrapper that [run] puts around every debug tool.  [World] is
    whatever the tool acts on and [implementation] the wrapped tool. *)
Definition wrappedImplementation {World Result : Type} (name : string)
    (implementation : string -> World -> Result * World)
    (argsStr : string) (now : Z) (d : t) (w : World) : Result * t * World :=
  let '(repeated, d1) := detectRepetition name argsStr now d in
  let d2 := if repeated then injectLoopWarning name d1 else d1 in
  let '(r, w') := implementation argsStr w in
  (r, d2, w').

End DeepCodeDebugger.

(* ------------------------------------------------------------------ *)
(** ** State migration ([StateMigration.migrateIfNeeded]) *)
(* ------------------------------------------------------------------ *)

Module StateMigration.

(** A stored file is read as [any]: each property may be present or not. *)
Record StoredFile := mkStoredFile {
  filePath : option string;
  fileContents : option string;
  filePurpose : option string;
  file_path : option string;
  file_contents : option string;
  file_purpose : option string;
  lastDiff : option string }.

(** [a || b] on properties that may be missing. *)
Definition jsOr (a b : option string) : option string :=
  match a with
  | Some x => if truthy x then a else b
  | None => b
  end.

Definition present {A} (o : option A) : bool :=
  match o with Some _ => true | None => false end.

Definition hasOldFormat (f : StoredFile) : bool :=
  present (file_path f) || present (file_contents f) || present (file_purpose f).

Definition migrateFile (f : StoredFile) : StoredFile :=
  if hasOldFormat f then
    {| filePath := jsOr (filePath f) (file_path f);
       fileContents := jsOr (fileContents f) (file_contents f);
       filePurpose := jsOr (filePurpose f) (file_purpose f);
       file_path := None; file_contents := None; file_purpose := None;
       lastDiff := None |}
  else f.

(** Message content: a string, or anything else as its
    [JSON.stringify(content || '')]. *)
Inductive Content :=
| Text (s : string)
| Structured (json : string).

(** [conversationId] is the empty string when the message has none. *)
Record Message := mkMessage {
  role : string;
  conversationId : string;
  content : Content }.

Definition contentString (c : Content) : string :=
  match c with Text s => s | Structured j => j end.

(** The key under which a message is deduplicated; [now] is the
    [Date.now()] read for a message without [conversationId]. *)
Definition messageKey (now : Z) (m : Message) : string :=
  if truthy (conversationId m) then conversationId m
  else or_else (role m) "unknown" +:+ "_"
         +:+ String.substring 0 100 (contentString (content m))
         +:+ "_" +:+ pretty now.

(** The [for] loop over the messages with its [seen] set; [clock i] is
    the time at which the [i]-th message is visited. *)
Fixpoint dedup (clock : nat -> Z) (i : nat) (seen : gset string)
    (msgs : list Message) : list Message :=
  match msgs with
  | [] => []
  | m :: rest =>
      let key := messageKey (clock i) m in
      if decide (key ∈ seen) then dedup clock (S i) seen rest
      else m :: dedup clock (S i) ({[key]} ∪ seen) rest
  end.

(** [parseInt]: leading white space, a sign, a [0x] prefix, then the
    longest run of digits; [None] is [NaN]. *)
Definition digitValue (radix : Z) (c : ascii) : option Z :=
  let n := Z.of_nat (nat_of_ascii c) in
  let v := if (48 <=? n) && (n <=? 57) then Some (n - 48)
           else if (97 <=? n) && (n <=? 102) then Some (n - 87)
           else if (65 <=? n) && (n <=? 70) then Some (n - 55)
           else None in
  match v with
  | Some d => if d <? radix then Some d else None
  | None => None
  end.

Fixpoint parseDigits (radix : Z) (acc : option Z) (cs : list ascii) : option Z :=
  match cs with
  | [] => acc
  | c :: rest =>
      match digitValue radix c with
      | Some d => parseDigits radix (Some (default 0 acc * radix + d)) rest
      | None => acc
      end
  end.

Definition parseInt (s : string) : option Z :=
  let cs := Pattern.dropSpaces (String.list_ascii_of_string s) in
  let '(sign, cs) :=
    match cs with
    | "+"%char :: r => (1, r)
    | "-"%char :: r => (-1, r)
    | _ => (1, cs)
    end in
  let '(radix, cs) :=
    match cs with
    | "0"%char :: "x"%char :: r => (16, r)
    | "0"%char :: "X"%char :: r => (16, r)
    | _ => (10, cs)
    end in
  (fun v => sign * v) <$> parseDigits radix None cs.

(** [id.split('-')[1]] for an [id] that starts with ["conv-"]. *)
Fixpoint untilDash (cs : list ascii) : list ascii :=
  match cs with
  | [] => []
  | c :: rest => if Ascii.eqb c "-" then [] else c :: untilDash rest
  end.

Definition getTimestamp (m : Message) : Z :=
  let id := conversationId m in
  if truthy id && String.prefix "conv-" id then
    let part :=
      String.string_of_list_ascii
        (untilDash (drop 5 (String.list_ascii_of_string id))) in
    match parseInt part with
    | Some v => v
    | None => 0
    end
  else 0.

(** [Array.prototype.sort] is stable: an insertion sort on the
    comparator [getTimestamp(a) - getTimestamp(b)]. *)
Fixpoint insertByTimestamp (m : Message) (l : list Message) : list Message :=
  match l with
  | [] => [m]
  | x :: rest =>
      if getTimestamp m <=? getTimestamp x then m :: l
      else x :: insertByTimestamp m rest
  end.

Definition sortByTimestamp (l : list Message) : list Message :=
  foldr insertByTimestamp [] l.

Definition includes (needle hay : string) : bool :=
  present (String.index 0 needle hay).

Definition isInternalMemo (m : Message) : bool :=
  let c := contentString (content m) in
  includes "**<Internal Memo>**" c || includes "Project Updates:" c.

Definition MIN_MESSAGES_FOR_CLEANUP : nat := 25.

Definition cleanConversation (clock : nat -> Z) (msgs : list Message)
  : list Message :=
  let uniqueMessages := sortByTimestamp (dedup clock 0 ∅ msgs) in
  if (MIN_MESSAGES_FOR_CLEANUP <? length uniqueMessages)%nat
  then List.filter (fun m => negb (isInternalMemo m)) uniqueMessages
  else uniqueMessages.

(** The message carries a (non-empty) [conversationId]. *)
Definition hasId (m : Message) : Prop := truthy (conversationId m) = true.

(** The order that the sort establishes. *)
Definition byTimestamp (a b : Message) : Prop := getTimestamp a ≤ getTimestamp b.

(** A conversation on which the cleanup has nothing left to do:
    unique identifiers, sorted, and free of memos when long. *)
Record clean (l : list Message) : Prop := {
  clean_ids : Forall hasId l;
  clean_nodup : NoDup (conversationId <$> l);
  clean_sorted : StronglySorted byTimestamp l;
  clean_memos :
    (MIN_MESSAGES_FOR_CLEANUP < length l)%nat →
    List.filter (fun m => negb (isInternalMemo m)) l = l }.

Record StoredInferenceContext := mkStoredContext {
  userApiKeys : option string;
  agentId : string;
  userId : string }.

(** The persisted document as the migration reads it: the current keys
    it touches, the legacy keys it looks for, and every other key,
    carried along by the spread [{ ...state }]. *)
Record StoredState := mkStored {
  generatedFilesMap : gmap string StoredFile;
  conversationMessages : list Message;
  inferenceContext : option StoredInferenceContext;
  latestScreenshot : option string;
  projectUpdatesAccumulator : option (list string);
  templateDetails : option string;
  templateName : string;
  projectName : string;
  blueprintProjectName : option string;
  query : string;
  otherKeys : gmap string string }.

(** [generateProjectName] of the template customizer, whose source is
    not part of the modelled files. *)
Class NameGenerator := generateProjectName : string -> string -> nat -> string.

(** What a run of the migration reads from outside the state: the clock
    and the identifier drawn by [generateNanoId()]. *)
Record Env := mkEnv {
  clock : nat -> Z;
  nanoId : string }.

Definition migrateIfNeeded `{NameGenerator} (env : Env) (state : StoredState)
  : option StoredState :=
  let migratedFilesMap := migrateFile <$> generatedFilesMap state in
  let filesChanged :=
    negb (bool_decide
            (map_Forall (fun _ f => hasOldFormat f = false) (generatedFilesMap state))) in
  let original := conversationMessages state in
  let migratedConversationMessages :=
    if (0 <? length original)%nat then cleanConversation (clock env) original
    else original in
  let conversationChanged :=
    negb (length migratedConversationMessages =? length original)%nat in
  let hasUserApiKeys :=
    match inferenceContext state with
    | Some ic => present (userApiKeys ic)
    | None => false
    end in
  let migratedInferenceContext :=
    if hasUserApiKeys
    then (fun ic => {| userApiKeys := None; agentId := agentId ic;
                       userId := userId ic |}) <$> inferenceContext state
    else inferenceContext state in
  let stateHasDeprecatedProps := present (latestScreenshot state) in
  let stateHasProjectUpdatesAccumulator := present (projectUpdatesAccumulator state) in
  let hasTemplateDetails := present (templateDetails state) in
  let migratedTemplateName := default (templateName state) (templateDetails state) in
  let missingProjectName := negb (truthy (projectName state)) in
  let migratedProjectName :=
    if missingProjectName then
      generateProjectName
        (or_else (default "" (blueprintProjectName state))
                 (or_else migratedTemplateName (query state)))
        (nanoId env) 20
    else projectName state in
  let needsMigration :=
    filesChanged || conversationChanged || hasUserApiKeys
    || stateHasDeprecatedProps || negb stateHasProjectUpdatesAccumulator
    || hasTemplateDetails || missingProjectName in
  if needsMigration then
    Some {| generatedFilesMap := migratedFilesMap;
            conversationMessages := migratedConversationMessages;
            inferenceContext := migratedInferenceContext;
            latestScreenshot := None;
            projectUpdatesAccumulator := Some [];
            templateDetails := None;
            templateName := migratedTemplateName;
            projectName := migratedProjectName;
            blueprintProjectName := blueprintProjectName state;
            query := query state;
            otherKeys := otherKeys state |}
  else None.

(** A state on which no migration rule applies. *)
Record settled (s : StoredState) : Prop := {
  settled_files : map_Forall (fun _ f => hasOldFormat f = false) (generatedFilesMap s);
  settled_conversation : clean (conversationMessages s);
  settled_keys :
    match inferenceContext s with
    | Some ic => userApiKeys ic = None
    | None => True
    end;
  settled_screenshot : latestScreenshot s = None;
  settled_accumulator : is_Some (projectUpdatesAccumulator s);
  settled_template : templateDetails s = None;
  settled_name : truthy (projectName s) = true }.

(** The state in use after loading: the migrated one, or the stored one
    when no migration was needed. *)
Definition migrate `{NameGenerator} (env : Env) (state : StoredState) : StoredState :=
  default state (migrateIfNeeded env state).

End StateMigration.

(* ------------------------------------------------------------------ *)
(** ** Conversation histories ([getConversationState],
       [setConversationState], [addConversationMessage]) *)
(* ------------------------------------------------------------------ *)

Module Conversation.
Import State.


(** The [messages] column of a row: the JSON text of an array of
    messages, or anything else (empty, not JSON, not an array). *)
Inductive Stored :=
| Json (messages : list ConversationMessage)
| Unreadable.

(** The tables [full_conversations] and [compact_conversations], each
    with at most one row per id. *)
Record Tables := mkTables {
  full_conversations : gmap string Stored;
  compact_conversations : gmap string Stored }.

Record ConversationState := mkConversation {
  id : string;
  runningHistory : list ConversationMessage;
  fullHistory : list ConversationMessage }.

Definition parseRow (row : option Stored) : list ConversationMessage :=
  match row with
  | Some (Json messages) => messages
  | _ => []
  end.

(** The [filter] with its [seen] set. *)
Fixpoint dedupFrom (seen : gset string) (messages : list ConversationMessage)
  : list ConversationMessage :=
  match messages with
  | [] => []
  | msg :: rest =>
      if decide (conversationId msg ∈ seen) then dedupFrom seen rest
      else msg :: dedupFrom ({[conversationId msg]} ∪ seen) rest
  end.

Definition deduplicateMessages (messages : list ConversationMessage)
  : list ConversationMessage := dedupFrom ∅ messages.

(** [currentConversation] is [this.state.conversationMessages]. *)
Definition getConversationState (sessionId : string)
    (currentConversation : list ConversationMessage) (t : Tables) : ConversationState :=
  let fullHistory := parseRow (full_conversations t !! sessionId) in
  let fullHistory :=
    if (length fullHistory =? 0)%nat then currentConversation else fullHistory in
  let runningHistory := parseRow (compact_conversations t !! sessionId) in
  let runningHistory :=
    if (length runningHistory =? 0)%nat then currentConversation else runningHistory in
  {| id := sessionId;
     runningHistory := deduplicateMessages runningHistory;
     fullHistory := deduplicateMessages fullHistory |}.





(** The message stored under an id, if any. *)
Definition messageWithId (i : string) (history : list ConversationMessage)
  : option ConversationMessage :=
  List.find (fun msg => String.eqb (conversationId msg) i) history.

End Conversation.

(* ------------------------------------------------------------------ *)
(** ** The cached GitHub token ([setGitHubToken], [getGitHubToken],
       [clearGitHubToken]) *)
(* ------------------------------------------------------------------ *)

Module GitHubToken.

Record Cache := mkCache {
  token : string;
  username : string;
  expiresAt : Z }.

Definition DEFAULT_TTL : Z := 3600000.

(** [now] is the reading of [Date.now()]; the field [githubTokenCache]
    is [None] when null. *)
Definition setGitHubToken (tok user : string) (ttl : Z) (now : Z) : option Cache :=
  Some {| token := tok; username := user; expiresAt := now + ttl |}.

Definition getGitHubToken (now : Z) (cache : option Cache)
  : option (string * string) * option Cache :=
  match cache with
  | None => (None, None)
  | Some c =>
      if expiresAt c <=? now then (None, None)
      else (Some (token c, username c), Some c)
  end.

Definition clearGitHubToken (cache : option Cache) : option Cache := None.

End GitHubToken.

(* ------------------------------------------------------------------ *)
(** ** Abort controllers ([getOrCreateAbortController],
       [cancelCurrentInference], [clearAbortController]) *)
(* ------------------------------------------------------------------ *)

Module AbortControllers.

(** Controllers are objects shared with the operations that hold their
    signal: the heap keeps the [aborted] flag of every controller created
    so far, and the agent's field points into it. *)
Record t := mk {
  heap : list bool;
  currentAbortController : option nat }.

Definition initial : t := {| heap := []; currentAbortController := None |}.

(** [controller.signal.aborted] *)
Definition aborted (a : t) (controller : nat) : bool :=
  default false (heap a !! controller).

Definition newController (a : t) : nat * t :=
  let controller := length (heap a) in
  (controller,
   {| heap := heap a ++ [false]; currentAbortController := Some controller |}).

Definition getOrCreateAbortController (a : t) : nat * t :=
  match currentAbortController a with
  | Some controller =>
      if negb (aborted a controller) then (controller, a) else newController a
  | None => newController a
  end.

Definition cancelCurrentInference (a : t) : bool * t :=
  match currentAbortController a with
  | Some controller =>
      (true, {| heap := <[controller := true]> (heap a);
                currentAbortController := None |})
  | None => (false, a)
  end.

Definition clearAbortController (a : t) : t :=
  {| heap := heap a; currentAbortController := None |}.

(** The field points to a controller that exists. *)
Definition wellFormed (a : t) : Prop :=
  match currentAbortController a with
  | Some controller => (controller < length (heap a))%nat
  | None => True
  end.

End AbortControllers.

(* ------------------------------------------------------------------ *)
(** ** The [get_logs] tool ([get-logs.ts]) *)
(* ------------------------------------------------------------------ *)

Module GetLogsTool.

Definition newline : ascii := ascii_of_nat 10.

(** [s.split('\n')] *)
Fixpoint splitLines (s : string) : list string :=
  match s with
  | EmptyString => [""]
  | String c rest =>
      if Ascii.eqb c newline then "" :: splitLines rest
      else match splitLines rest with
           | line :: lines => String c line :: lines
           | [] => [String c ""]
           end
  end.

(** [lines.join('\n')] *)
Fixpoint joinLines (lines : list string) : string :=
  match lines with
  | [] => ""
  | [line] => line
  | line :: rest => line +:+ String newline (joinLines rest)
  end.

(** [l.slice(start)] for an integer [start]. *)
Definition sliceFrom {A} (start : Z) (l : list A) : list A :=
  let len := Z.of_nat (length l) in
  let k := if start <? 0 then Z.max (len + start) 0 else Z.min start len in
  drop (Z.to_nat k) l.

Record Args := mkArgs {
  reset : option bool;
  durationSeconds : option Z;
  maxLines : option Z }.

Inductive Result :=
| Logs (logs : string)
| Error (error : string).

Definition truncationNotice (maxLines : Z) (total : nat) : string :=
  "[TRUNCATED: Showing last " +:+ pretty maxLines +:+ " of " +:+ pretty total
    +:+ " lines. Set maxLines higher or to -1 for full output]".

(** [getLogs] is [agent.getLogs(reset, durationSeconds)]: the logs, or the
    message of the error it throws. *)
Definition implementation (getLogs : bool -> Z -> string + string)
    (args : option Args) : Result :=
  let reset := default false (args ≫= reset) in
  let durationSeconds := default 30 (args ≫= durationSeconds) in
  let maxLines := default 100 (args ≫= maxLines) in
  match getLogs reset durationSeconds with
  | inr msg => Error ("Failed to get logs: " +:+ msg)
  | inl logs =>
      if negb (maxLines =? -1) && truthy logs then
        let lines := splitLines logs in
        if Z.of_nat (length lines) >? maxLines then
          let truncatedLines := sliceFrom (- maxLines) lines in
          Logs (joinLines (truncationNotice maxLines (length lines) :: truncatedLines))
        else Logs logs
      else Logs logs
  end.

End GetLogsTool.

(* ------------------------------------------------------------------ *)
(** ** The [git] tool ([git.ts]) *)
(* ------------------------------------------------------------------ *)

Module GitTool.

Record ShowResult := mkShow {
  showOid : string;
  showMessage : string;
  showFiles : Z }.

Record ResetResult := mkReset {
  ref : string;
  filesReset : Z }.

(** The git instance of the agent, as the tool uses it; [inr msg] is a
    thrown error with its message.  [commit] answers with the new oid or
    with null. *)
Class GitInstance := mkGit {
  commit : string -> option string + string;
  log : Z -> list string + string;
  show : string -> option bool -> ShowResult + string;
  reset : string -> ResetResult + string }.

(** The calls made on the git instance. *)
Inductive Op :=
| OpCommit (message : string)
| OpLog (limit : Z)
| OpShow (oid : string) (includeDiff : option bool)
| OpReset (oid : string).

Record GitToolArgs := mkArgs {
  command : string;
  message : option string;
  limit : option Z;
  oid : option string;
  includeDiff : option bool }.

Inductive Data :=
| DataOid (oid : option string)
| DataCommits (commits : list string)
| DataShow (result : ShowResult)
| DataReset (result : ResetResult).

Record ToolResult := mkResult {
  success : bool;
  data : option Data;
  resultMessage : string }.

Definition failure (msg : string) : ToolResult :=
  {| success := false; data := None; resultMessage := msg |}.

(** The [catch] block. *)
Definition caught (command error : string) : ToolResult :=
  failure ("Git " +:+ command +:+ " failed: " +:+ error).

(** A string argument that is absent or empty. *)
Definition given (arg : option string) : option string :=
  match arg with
  | Some v => if truthy v then Some v else None
  | None => None
  end.

Definition implementation `{GitInstance} (args : GitToolArgs) : ToolResult * list Op :=
  if String.eqb (command args) "commit" then
    match given (message args) with
    | None => (failure "Commit message is required for commit command", [])
    | Some m =>
        match commit m with
        | inl commitOid =>
            ({| success := true; data := Some (DataOid commitOid);
                resultMessage :=
                  match given commitOid with
                  | Some _ => "Committed: " +:+ m
                  | None => "No changes to commit"
                  end |}, [OpCommit m])
        | inr error => (caught (command args) error, [OpCommit m])
        end
    end
  else if String.eqb (command args) "log" then
    let n := match limit args with
             | Some l => if l =? 0 then 10 else l
             | None => 10
             end in
    match log n with
    | inl commits =>
        ({| success := true; data := Some (DataCommits commits);
            resultMessage := "Retrieved " +:+ pretty (length commits) +:+ " commits" |},
         [OpLog n])
    | inr error => (caught (command args) error, [OpLog n])
    end
  else if String.eqb (command args) "show" then
    match given (oid args) with
    | None => (failure "Commit OID is required for show command", [])
    | Some o =>
        match show o (includeDiff args) with
        | inl r =>
            ({| success := true; data := Some (DataShow r);
                resultMessage :=
                  "Commit " +:+ String.substring 0 7 (showOid r) +:+ ": "
                    +:+ showMessage r +:+ " (" +:+ pretty (showFiles r) +:+ " files)" |},
             [OpShow o (includeDiff args)])
        | inr error => (caught (command args) error, [OpShow o (includeDiff args)])
        end
    end
  else if String.eqb (command args) "reset" then
    match given (oid args) with
    | None => (failure "Commit OID is required for reset command", [])
    | Some o =>
        match reset o with
        | inl r =>
            ({| success := true; data := Some (DataReset r);
                resultMessage :=
                  "Reset to commit " +:+ String.substring 0 7 (ref r) +:+ ". "
                    +:+ pretty (filesReset r) +:+ " files updated. HEAD moved." |},
             [OpReset o])
        | inr error => (caught (command args) error, [OpReset o])
        end
    end
  else (failure ("Unknown git command: " +:+ command args), []).

Definition allCommands : list string := ["commit"; "log"; "show"; "reset"].

Record Tool := mkTool {
  allowedCommands : list string;
  hasReset : bool;
  run : GitToolArgs -> ToolResult * list Op }.

(** [createGitTool(agent, logger, options)]: [excludeCommands] shapes the
    advertised [enum] and the description. *)
Definition createGitTool `{GitInstance} (excludeCommands : option (list string)) : Tool :=
  let allowed :=
    match excludeCommands with
    | Some excluded =>
        List.filter (fun cmd => negb (existsb (String.eqb cmd) excluded)) allCommands
    | None => allCommands
    end in
  {| allowedCommands := allowed;
     hasReset := existsb (String.eqb "reset") allowed;
     run := implementation |}.

End GitTool.

(* ------------------------------------------------------------------ *)
(** ** Template files ([getTemplateImportantFiles], [getTemplateFiles]) *)
(* ------------------------------------------------------------------ *)

Module Template.

Record TemplateFile := mkFile {
  filePath : string;
  fileContents : string }.

(** [allFiles] is listed in the order of [Object.entries]. *)
Record TemplateDetails := mkDetails {
  allFiles : list (string * string);
  importantFiles : list string;
  redactedFiles : list string }.

Definition isImportant (td : TemplateDetails) (p : string) : bool :=
  existsb (fun pattern => String.eqb p pattern || String.prefix pattern p)
          (importantFiles td).

Definition isRedacted (td : TemplateDetails) (p : string) : bool :=
  existsb (String.eqb p) (redactedFiles td).

Definition shownContents (td : TemplateDetails) (filterRedacted : bool)
    (p c : string) : string :=
  if filterRedacted && isRedacted td p then "REDACTED" else c.

Definition getTemplateImportantFiles (td : TemplateDetails) (filterRedacted : bool)
  : list TemplateFile :=
  foldl (fun result (entry : string * string) =>
           if isImportant td entry.1 then
             let contents := shownContents td filterRedacted entry.1 entry.2 in
             if truthy contents
             then result ++ [{| filePath := entry.1; fileContents := contents |}]
             else result
           else result)
        [] (allFiles td).

(** What one round of the loop of [getTemplateImportantFiles] pushes. *)
Definition contribution (td : TemplateDetails) (filterRedacted : bool)
    (entry : string * string) : option TemplateFile :=
  if isImportant td entry.1 then
    let contents := shownContents td filterRedacted entry.1 entry.2 in
    if truthy contents
    then Some {| filePath := entry.1; fileContents := contents |}
    else None
  else None.

Definition getTemplateFiles (td : TemplateDetails) : list TemplateFile :=
  map (fun entry : string * string =>
         {| filePath := entry.1; fileContents := entry.2 |}) (allFiles td).

End Template.

(* ------------------------------------------------------------------ *)
(** ** Batches of commands (the chunking loop of [executeCommands]) *)
(* ------------------------------------------------------------------ *)

Module Commands.

(** [commands.slice(i, i + chunkSize)] *)
Definition slice {A} (i j : nat) (l : list A) : list A := take (j - i) (drop i l).

(** [for (let i = 0; i < commands.length; i += chunkSize)]; the loop
    makes at most [length commands] rounds when [chunkSize] is positive,
    which is what [rounds] counts down. *)
Fixpoint chunkLoop {A} (rounds : nat) (chunkSize : nat) (commands : list A) (i : nat)
  : list (list A) :=
  match rounds with
  | O => []
  | S rounds' =>
      if (i <? length commands)%nat
      then slice i (i + chunkSize) commands
             :: chunkLoop rounds' chunkSize commands (i + chunkSize)
      else []
  end.

Definition commandChunks {A} (chunkSize : nat) (commands : list A) : list (list A) :=
  chunkLoop (length commands) chunkSize commands 0.

End Commands.

(* ------------------------------------------------------------------ *)
(** ** Concrete collaborators and inputs used to run the model *)
(* ------------------------------------------------------------------ *)

Module Fixtures.
Import State.

Definition setupPhase : PhaseConceptType :=
  {| name := "Setup"; description := "Project setup"; files := [];
     lastPhase := false |}.
Definition apiPhase : PhaseConceptType :=
  {| name := "API"; description := "API routes"; files := [];
     lastPhase := false |}.

Definition blueprint0 : Blueprint.t :=
  {| Blueprint.title := "Todo"; Blueprint.projectName := "todo";
     Blueprint.description := "A todo app"; Blueprint.frameworks := ["react"];
     Blueprint.initialPhase := setupPhase |}.

Definition state0 : CodeGenState.t :=
  {| CodeGenState.blueprint := blueprint0;
     CodeGenState.projectName := "todo-x1y2z3";
     CodeGenState.query := "build a todo app";
     CodeGenState.generatedFilesMap := ∅;
     CodeGenState.generatedPhases := [];
     CodeGenState.commandsHistory := [];
     CodeGenState.lastPackageJson := None;
     CodeGenState.templateName := "react-vite-cf";
     CodeGenState.sandboxInstanceId := Some "sbx-1";
     CodeGenState.shouldBeGenerating := true;
     CodeGenState.mvpGenerated := false;
     CodeGenState.reviewingInitiated := false;
     CodeGenState.agentMode := deterministic;
     CodeGenState.sessionId := "session-1";
     CodeGenState.hostname := "localhost";
     CodeGenState.phasesCounter := MAX_PHASES;
     CodeGenState.pendingUserInputs := [];
     CodeGenState.currentDevState := IDLE;
     CodeGenState.reviewCycles := None;
     CodeGenState.currentPhase := None;
     CodeGenState.conversationMessages := [];
     CodeGenState.projectUpdatesAccumulator := [];
     CodeGenState.inferenceContext :=
       {| agentId := "agent-1"; userId := "user-1";
          enableRealtimeCodeFix := false; enableFastSmartCodeFix := false |};
     CodeGenState.lastDeepDebugTranscript := None |}.

Definition agent0 : Agent.t :=
  {| Agent.state := state0;
     Agent.generationPromise := None;
     Agent.deepDebugPromise := None;
     Agent.pendingUserImages := [];
     Agent.launched := [];
     Agent.outbox := [];
     Agent.registry := Some {| Registry.title := "Todo"; Registry.status := "generating" |};
     Agent.sandboxRenames := [] |}.

(** Collaborators that always succeed and change nothing. *)
Definition quiet : Agent.Collaborators :=
  {| Agent.isProjectUpdateType := fun _ => false;
     Agent.templateDetailsLoad := fun _ => true;
     Agent.sandboxUpdateProjectName := fun _ _ => Some true;
     Agent.appServiceThrows := fun _ => false;
     Agent.fetchAllIssues := fun _ =>
       Agent.ret {| Agent.runtimeErrors := [];
                    Agent.staticAnalysis :=
                      {| Agent.success := true; Agent.lint := [];
                         Agent.typecheck := [] |} |};
     Agent.fetchRuntimeErrors := fun _ => Agent.ret [];
     Agent.planPhase := fun _ _ _ =>
       Agent.ret {| Agent.phase := apiPhase; Agent.installCommands := [] |};
     Agent.runDebugger := fun _ _ _ => Agent.ret "TASK_COMPLETE: fixed";
     Agent.generateAndDeploy := fun _ _ _ => Agent.ret tt |}.

Definition fileManagerEnv : FileManager.Env :=
  {| FileManager.getTemplateDetailsFunc := None;
     FileManager.now := fun _ => 1700000000000;
     FileManager.gitThrows := false |}.

Definition failingGitEnv : FileManager.Env :=
  {| FileManager.getTemplateDetailsFunc := None;
     FileManager.now := fun _ => 1700000000000;
     FileManager.gitThrows := true |}.

Definition appTsx (contents : string) : FileOutputType :=
  {| filePath := "src/App.tsx"; fileContents := contents;
     filePurpose := "Main view" |}.

Definition mainTsx (contents : string) : FileOutputType :=
  {| filePath := "src/main.tsx"; fileContents := contents;
     filePurpose := "Entry point" |}.

(** A name generator in the shape of the customizer's: prefix, dash,
    unique suffix. *)
Definition dashedName : StateMigration.NameGenerator :=
  fun base suffix maxLen => String.substring 0 maxLen base +:+ "-" +:+ suffix.

(** A stored state of an old schema. *)
Definition legacyState : StateMigration.StoredState :=
  {| StateMigration.generatedFilesMap :=
       {[ "src/App.tsx" :=
            {| StateMigration.filePath := None;
               StateMigration.fileContents := None;
               StateMigration.filePurpose := None;
               StateMigration.file_path := Some "src/App.tsx";
               StateMigration.file_contents := Some "export default App";
               StateMigration.file_purpose := Some "Main view";
               StateMigration.lastDiff := None |} ]};
     StateMigration.conversationMessages :=
       [ StateMigration.mkMessage "assistant" "conv-2000-b" (StateMigration.Text "Done.");
         StateMigration.mkMessage "user" "conv-1000-a" (StateMigration.Text "build a todo app");
         StateMigration.mkMessage "assistant" "conv-2000-b" (StateMigration.Text "Done.") ];
     StateMigration.inferenceContext :=
       Some {| StateMigration.userApiKeys := Some "sk-live";
               StateMigration.agentId := "agent-1";
               StateMigration.userId := "user-1" |};
     StateMigration.latestScreenshot := Some "shot.png";
     StateMigration.projectUpdatesAccumulator := None;
     StateMigration.templateDetails := Some "react-vite-cf";
     StateMigration.templateName := "";
     StateMigration.projectName := "";
     StateMigration.blueprintProjectName := Some "todo";
     StateMigration.query := "build a todo app";
     StateMigration.otherKeys := {[ "hostname" := "localhost" ]} |}.

(** A state of the current schema whose conversation holds the same
    message twice, without [conversationId]. *)
Definition anonymousTwice : StateMigration.StoredState :=
  {| StateMigration.generatedFilesMap := ∅;
     StateMigration.conversationMessages :=
       [ StateMigration.mkMessage "user" "" (StateMigration.Text "hi");
         StateMigration.mkMessage "user" "" (StateMigration.Text "hi") ];
     StateMigration.inferenceContext := None;
     StateMigration.latestScreenshot := None;
     StateMigration.projectUpdatesAccumulator := Some [];
     StateMigration.templateDetails := None;
     StateMigration.templateName := "react-vite-cf";
     StateMigration.projectName := "todo-x1y2z3";
     StateMigration.blueprintProjectName := Some "todo";
     StateMigration.query := "build a todo app";
     StateMigration.otherKeys := ∅ |}.

(** A run during which the clock advances between two messages, and a
    run that fits into one millisecond. *)
Definition tickingRun : StateMigration.Env :=
  {| StateMigration.clock := fun i => 1700000000000 + Z.of_nat i;
     StateMigration.nanoId := "k3j9x" |}.
Definition instantRun : StateMigration.Env :=
  {| StateMigration.clock := fun _ => 1700000000500;
     StateMigration.nanoId := "p7q2m" |}.

End Fixtures.

(* ================================================================== *)
(** * Properties *)
(* ================================================================== *)

(** ** FileManager: saving the same files twice *)

Section SaveGeneratedFiles.
Import State FileManager.
Context `{DiffLib}.

Lemma saveLoop_covers env st (todo : list FileOutputType) :
  ∀ done m fss i,
    covers m done →
    covers (foldl (saveOne env st) (m, fss, i) todo).1.1 (done ++ todo).
Proof.
  induction todo as [|f todo IH]; intros done m fss i Hc; simpl.
  - by rewrite app_nil_r.
  - replace (done ++ f :: todo) with ((done ++ [f]) ++ todo)
      by (by rewrite <- app_assoc).
    apply IH. intros g Hg.
    destruct (decide (filePath g = filePath f)) as [Heq|Hne].
    + eexists. rewrite Heq, lookup_insert_eq. split; [done|]. simpl.
      split; [|done]. apply elem_of_app. right. by apply list_elem_of_singleton.
    + apply elem_of_app in Hg as [Hg|Hg].
      * destruct (Hc g Hg) as (fs & Hl & Hin & Hp).
        exists fs. rewrite lookup_insert_ne by done.
        split; [done|]. split; [|done]. apply elem_of_app. by left.
      * apply list_elem_of_singleton in Hg. by subst.
Qed.

Lemma computeDiff_same p c : computeDiff p c c = "".
Proof. unfold computeDiff. by rewrite String.eqb_refl. Qed.

Lemma saveLoop_upToDate env st F (todo : list FileOutputType) :
  consistentPaths F →
  ∀ m fss i,
    (∀ f, f ∈ todo → f ∈ F) →
    upToDate m F →
    Forall (fun fs => lastDiff fs = "") fss →
    Forall (fun fs => lastDiff fs = "")
           (foldl (saveOne env st) (m, fss, i) todo).1.2.
Proof.
  intros Hcons. induction todo as [|f todo IH]; intros m fss i Hsub Hup Hfss; simpl.
  - done.
  - assert (Hf : f ∈ F) by (apply Hsub; by left).
    destruct (Hup f Hf) as (old & Hold & Hc).
    assert (Hbase : oldFileContents env st m (filePath f) = fileContents f).
    { unfold oldFileContents. by rewrite Hold. }
    apply IH.
    + intros g Hg. apply Hsub. by right.
    + intros g Hg.
      destruct (decide (filePath g = filePath f)) as [Heq|Hne].
      * eexists. rewrite Heq, lookup_insert_eq. split; [done|]. simpl.
        by apply Hcons.
      * destruct (Hup g Hg) as (fs & Hl & Hfc).
        exists fs. by rewrite lookup_insert_ne.
    + apply Forall_app. split; [done|]. constructor; [|done]. simpl.
      rewrite Hbase. apply computeDiff_same.
Qed.

Lemma shouldCommit_no_diff fss :
  Forall (fun fs => lastDiff fs = "") fss → shouldCommit fss = false.
Proof.
  intros Hall. unfold shouldCommit. apply andb_false_iff. right.
  induction Hall as [|fs fss Hfs _ IH]; simpl; [done|].
  by rewrite Hfs, IH.
Qed.

Lemma saveGeneratedFiles_projections env st r F msg :
  generatedFilesMap_of (saveGeneratedFiles env st r F msg) = (saveLoop env st F).1.1
  ∧ result (saveGeneratedFiles env st r F msg) = (saveLoop env st F).1.2.
Proof.
  unfold generatedFilesMap_of, saveGeneratedFiles.
  destruct (saveLoop env st F) as [[m fss] n]. simpl.
  destruct (shouldCommit fss); [destruct (hasMessage msg)|]; done.
Qed.

End SaveGeneratedFiles.

Section SaveTwice.
Import State FileManager.
Context `{DiffLib}.

Lemma saveLoop_makes_upToDate env st F :
  consistentPaths F → upToDate (saveLoop env st F).1.1 F.
Proof.
  intros Hcons f Hf.
  pose proof (saveLoop_covers env st F [] (CodeGenState.generatedFilesMap st) [] 0%nat)
    as Hcov.
  simpl in Hcov.
  destruct (Hcov ltac:(by intros g Hg; apply elem_of_nil in Hg) f Hf)
    as (fs & Hl & Hin & Hp).
  exists fs. split; [exact Hl|]. by apply Hcons.
Qed.

Lemma saveGeneratedFiles_quiet env st r F msg :
  Forall (fun fs => lastDiff fs = "") (saveLoop env st F).1.2 →
  gitCalls (saveGeneratedFiles env st r F msg) = []
  ∧ repo (saveGeneratedFiles env st r F msg) = r.
Proof.
  intros Hall. unfold saveGeneratedFiles.
  destruct (saveLoop env st F) as [[m fss] n]. simpl in Hall.
  by rewrite (shouldCommit_no_diff fss Hall).
Qed.

(** C7 (amended).  Saving the same list [F] twice in a row, where the
    entries of [F] that share a path share their contents (in particular
    when the paths of [F] are distinct), gives an empty [lastDiff] for
    every file of the second call, and the second call issues neither a
    git commit nor a git stage and leaves the repository as it was. *)
Theorem C7_second_save_is_noop env1 env2 st r F msg1 msg2 :
  consistentPaths F →
  let s1 := saveGeneratedFiles env1 st r F msg1 in
  let s2 := saveGeneratedFiles env2 (state s1) (repo s1) F msg2 in
  Forall (fun fs => lastDiff fs = "") (result s2)
  ∧ gitCalls s2 = []
  ∧ repo s2 = repo s1.
Proof.
  intros Hcons s1 s2.
  assert (Hup : upToDate (CodeGenState.generatedFilesMap (state s1)) F).
  { destruct (saveGeneratedFiles_projections env1 st r F msg1) as [Hm _].
    unfold generatedFilesMap_of in Hm. subst s1. rewrite Hm.
    by apply saveLoop_makes_upToDate. }
  assert (Hall : Forall (fun fs => lastDiff fs = "")
                        (saveLoop env2 (state s1) F).1.2).
  { unfold saveLoop. apply (saveLoop_upToDate env2 (state s1) F F Hcons); auto. }
  destruct (saveGeneratedFiles_projections env2 (state s1) (repo s1) F msg2)
    as [_ Hres].
  destruct (saveGeneratedFiles_quiet env2 (state s1) (repo s1) F msg2 Hall)
    as [Hcalls Hrepo].
  subst s2. rewrite Hres. auto.
Qed.

End SaveTwice.

Lemma distinct_paths_consistent (F : list State.FileOutputType) :
  NoDup (map State.filePath F) → FileManager.consistentPaths F.
Proof.
  induction F as [|x F IH]; intros Hnd f g Hf Hg Hp.
  - by apply elem_of_nil in Hf.
  - simpl in Hnd. apply NoDup_cons in Hnd as [Hx Hnd].
    apply elem_of_cons in Hf as [->|Hf]; apply elem_of_cons in Hg as [->|Hg].
    + done.
    + exfalso. apply Hx. rewrite Hp. apply list_elem_of_fmap. by exists g.
    + exfalso. apply Hx. rewrite <- Hp. apply list_elem_of_fmap. by exists f.
    + by apply IH.
Qed.

Lemma C7_second_save_is_noop_witness :
  let F := [Fixtures.appTsx "export default App"; Fixtures.mainTsx "render()"] in
  FileManager.consistentPaths F
  ∧ let s1 := FileManager.saveGeneratedFiles (H := FileManager.headerDiff)
                Fixtures.fileManagerEnv Fixtures.state0 Git.empty F (Some "feat: Setup") in
    let s2 := FileManager.saveGeneratedFiles (H := FileManager.headerDiff)
                Fixtures.fileManagerEnv (FileManager.state s1) (FileManager.repo s1)
                F (Some "feat: Setup") in
    Forall (fun fs => State.lastDiff fs = "") (FileManager.result s2)
    ∧ FileManager.gitCalls s2 = []
    ∧ FileManager.repo s2 = FileManager.repo s1.
Proof.
  intros F.
  assert (Hc : FileManager.consistentPaths F).
  { apply distinct_paths_consistent. subst F. simpl.
    repeat constructor; rewrite ?elem_of_cons, ?elem_of_nil; intros Hin;
      repeat destruct Hin as [Hin|Hin]; try discriminate; done. }
  split; [exact Hc|].
  exact (C7_second_save_is_noop (H := FileManager.headerDiff)
           Fixtures.fileManagerEnv Fixtures.fileManagerEnv Fixtures.state0
           Git.empty F (Some "feat: Setup") (Some "feat: Setup") Hc).
Defined.

(** C7 as stated fails when [F] names a path twice with different
    contents: the second call compares the first entry with what the first
    call left (the last entry), finds a difference and commits again. *)
Lemma C7_counterexample :
  let F := [Fixtures.appTsx "x"; Fixtures.appTsx "y"] in
  let s1 := FileManager.saveGeneratedFiles (H := FileManager.headerDiff)
              Fixtures.fileManagerEnv Fixtures.state0 Git.empty F (Some "feat: Setup") in
  let s2 := FileManager.saveGeneratedFiles (H := FileManager.headerDiff)
              Fixtures.fileManagerEnv (FileManager.state s1) (FileManager.repo s1)
              F (Some "feat: Setup") in
  ¬ (Forall (fun fs => State.lastDiff fs = "") (FileManager.result s2)
     ∧ FileManager.gitCalls s2 = []).
Proof.
  intros F s1 s2 [_ Hcalls]. vm_compute in Hcalls. discriminate Hcalls.
Qed.

(** ** FileManager: a failing git call *)

Section SaveWithFailingGit.
Import State FileManager.
Context `{DiffLib}.

Lemma saveLoop_added env st (todo : list FileOutputType) :
  ∀ m fss i,
    ∃ added : list FileState,
      (foldl (saveOne env st) (m, fss, i) todo).1.2 = fss ++ added
      ∧ (foldl (saveOne env st) (m, fss, i) todo).1.1
        = foldl (fun acc (fs : FileState) => <[filePath fs := fs]> acc) m added
      ∧ map file added = todo.
Proof.
  induction todo as [|f todo IH]; intros m fss i; simpl.
  - exists []. by rewrite app_nil_r.
  - edestruct IH as (added & Hfss & Hm & Hfiles).
    eexists (_ :: added). rewrite Hfss, Hm, <- app_assoc. simpl.
    split; [reflexivity|]. split; [reflexivity|]. by rewrite Hfiles.
Qed.

(** C10.  When the git call of [saveGeneratedFiles] throws, the error is
    swallowed: the call returns one [FileState] per file of [F], the
    store's [generatedFilesMap] is the former map overwritten with these
    file states, exactly as when git works, and the repository is left
    untouched.  Hence the store can hold a file that HEAD does not: the
    second part exhibits such a run. *)
Theorem C10_failed_commit_is_swallowed :
  (∀ tpl clock st r F msg,
      let failing := {| getTemplateDetailsFunc := tpl; now := clock; gitThrows := true |} in
      let working := {| getTemplateDetailsFunc := tpl; now := clock; gitThrows := false |} in
      let s := saveGeneratedFiles failing st r F msg in
      repo s = r
      ∧ map file (result s) = F
      ∧ CodeGenState.generatedFilesMap (state s)
        = foldl (fun acc (fs : FileState) => <[filePath fs := fs]> acc)
                (CodeGenState.generatedFilesMap st) (result s)
      ∧ state s = state (saveGeneratedFiles working st r F msg)
      ∧ result s = result (saveGeneratedFiles working st r F msg))
  ∧ (∃ st r F msg p fs,
        let s := saveGeneratedFiles (H := headerDiff)
                   Fixtures.failingGitEnv st r F msg in
        gitCalls s = [Git.CallCommit (result s) "feat: Setup"]
        ∧ CodeGenState.generatedFilesMap (state s) !! p = Some fs
        ∧ fileContents (file fs) = "export default App"
        ∧ Git.getAllFilesFromHead (repo s) !! p = None).
Proof.
  split.
  - intros tpl clock st r F msg failing working s.
    destruct (saveLoop_added failing st F (CodeGenState.generatedFilesMap st) [] 0%nat)
      as (added & Hfss & Hm & Hfiles).
    assert (Hsame : saveLoop working st F = saveLoop failing st F) by reflexivity.
    subst s. unfold saveGeneratedFiles. rewrite Hsame. unfold saveLoop.
    destruct (foldl (saveOne failing st) (CodeGenState.generatedFilesMap st, [], 0%nat) F)
      as [[m fss] n] eqn:Hloop.
    simpl in Hfss, Hm. subst fss m.
    destruct (shouldCommit added); [destruct (hasMessage msg)|]; simpl; auto.
  - exists Fixtures.state0, Git.empty, [Fixtures.appTsx "export default App"],
      (Some "feat: Setup"), "src/App.tsx".
    eexists. cbv zeta. split; [|split; [|split]].
    + vm_compute. reflexivity.
    + vm_compute. reflexivity.
    + reflexivity.
    + vm_compute. reflexivity.
Qed.

End SaveWithFailingGit.

(** ** The agent: broadcasts *)

Section Broadcast.
Import State Agent.
Context `{Collaborators}.

(** A broadcast returns normally; of the agent it changes the outbox
    and, for project-update messages, the accumulator of the state. *)
Lemma broadcast_effect ty msg payload a :
  ∃ acc,
    broadcast ty msg payload a
    = (inl tt,
       with_outbox
         (with_state a (CodeGenState.with_projectUpdatesAccumulator (state a) acc))
         (outbox a ++ [mkBroadcast ty msg payload])).
Proof.
  unfold broadcast, bind, getAgent, putAgent, onProjectUpdate, getState, setState, ret.
  destruct (isProjectUpdateType ty); simpl.
  - eexists. reflexivity.
  - exists (CodeGenState.projectUpdatesAccumulator (state a)).
    by destruct a as [[] ? ? ? ? ? ? ?].
Qed.

End Broadcast.

(** ** The agent: single flight of [generateAllFiles] *)

Section SingleFlight.
Import State Agent.
Context `{Collaborators}.

(** C1 (amended).  A call of [generateAllFiles] made while a run is
    active starts no second run and leaves the agent as it is, and it
    resolves at once, without waiting for the run; the run can be awaited
    through [waitForGeneration].  Whatever the agent, a call that awaits
    a run is the call that started this run, when none was active; a call
    that does not start a run changes nothing. *)
Theorem C1_reentry_is_noop_and_returns_at_once (reviewCycles : Z) (a : Agent.t) :
  isCodeGenerating a = true →
  generateAllFiles reviewCycles a = (Resolved, a)
  ∧ (∃ run, generationPromise a = Some run ∧ waitForGeneration a = Awaiting run)
  ∧ (∀ any : Agent.t,
        match generateAllFiles reviewCycles any with
        | (Awaiting run, started) =>
            isCodeGenerating any = false
            ∧ generationPromise started = Some run
            ∧ launched started = launched any ++ [(run, reviewCycles)]
        | (Resolved, same) => same = any
        end).
Proof.
  intros Hgen. split; [|split].
  - unfold generateAllFiles. rewrite Hgen.
    by destruct (CodeGenState.mvpGenerated (state a) && _).
  - unfold isCodeGenerating, waitForGeneration in *.
    destruct (generationPromise a) as [run|]; [|discriminate].
    by exists run.
  - intros any. unfold generateAllFiles.
    destruct (CodeGenState.mvpGenerated (state any) && _); [done|].
    destruct (isCodeGenerating any) eqn:Hany; [done|].
    unfold startStateMachine, launchSynchronously.
    destruct (broadcast_effect WS.GENERATION_STARTED (Some "Starting code generation")
                None any) as [acc ->].
    simpl. done.
Qed.

End SingleFlight.

Lemma C1_reentry_is_noop_and_returns_at_once_witness :
  let running := (Agent.generateAllFiles (H := Fixtures.quiet) 5 Fixtures.agent0).2 in
  Agent.isCodeGenerating running = true
  ∧ Agent.generateAllFiles (H := Fixtures.quiet) 5 running = (Agent.Resolved, running).
Proof.
  intros running.
  assert (Hrun : Agent.isCodeGenerating running = true) by reflexivity.
  split; [exact Hrun|].
  exact (proj1 (C1_reentry_is_noop_and_returns_at_once (H := Fixtures.quiet)
                  5 running Hrun)).
Defined.

(** C1 as stated fails in its second half: the second caller does not
    wait for the run that the first caller started. *)
Lemma C1_counterexample :
  let running := (Agent.generateAllFiles (H := Fixtures.quiet) 5 Fixtures.agent0).2 in
  ¬ (Agent.isCodeGenerating running = true →
     Agent.launched (Agent.generateAllFiles (H := Fixtures.quiet) 5 running).2
     = Agent.launched running
     ∧ ∃ run, Agent.generationPromise running = Some run
              ∧ (Agent.generateAllFiles (H := Fixtures.quiet) 5 running).1
                = Agent.Awaiting run).
Proof.
  intros running Hall.
  destruct (Hall eq_refl) as [_ (run & _ & Hawait)].
  vm_compute in Hawait. discriminate Hawait.
Qed.

(** ** The agent: renaming the project *)

Section Rename.
Import State Agent.
Context `{Collaborators}.

Example validProjectName_slug : validProjectName "my-app_1" = true.
Proof. reflexivity. Qed.

Example validProjectName_space : validProjectName "My App" = false.
Proof. reflexivity. Qed.

Example validProjectName_short : validProjectName "ab" = false.
Proof. reflexivity. Qed.

Example validProjectName_long :
  validProjectName "aaaaaaaaaabbbbbbbbbbccccccccccddddddddddeeeeeeeeeef" = false
  ∧ validProjectName "aaaaaaaaaabbbbbbbbbbccccccccccddddddddddeeeeeeeeee" = true.
Proof. split; reflexivity. Qed.

(** C9.  A name that does not match [/^[a-z0-9-_]{3,50}$/] is refused:
    [updateProjectName] returns [false] and the agent is unchanged: its
    persisted state (the blueprint included), the registry row, the
    requests sent to the sandbox and the messages broadcast. *)
Theorem C9_invalid_name_changes_nothing (newName : string) (a : Agent.t) :
  validProjectName newName = false →
  updateProjectName newName a = (false, a).
Proof.
  intros Hinvalid. unfold updateProjectName. by rewrite Hinvalid.
Qed.

(** C2 (amended).  After a rename that returns [true], the blueprint's
    [projectName] and the title of the registry row are the new name;
    the [projectName] field of the state itself keeps its former value. *)
Theorem C2_successful_rename (newName : string) (a a' : Agent.t) :
  updateProjectName newName a = (true, a') →
  Blueprint.projectName (CodeGenState.blueprint (state a')) = newName
  ∧ (∃ row, registry a' = Some row ∧ Registry.title row = newName)
  ∧ CodeGenState.projectName (state a') = CodeGenState.projectName (state a).
Proof.
  unfold updateProjectName.
  destruct (validProjectName newName); simpl; [|discriminate].
  set (a1 := with_state a _).
  destruct (match CodeGenState.sandboxInstanceId (state a1) with
            | Some i => _ | None => _ end) as [ok a2] eqn:Hsandbox.
  assert (Ha2 : state a2 = state a1 ∧ registry a2 = registry a).
  { destruct (CodeGenState.sandboxInstanceId (state a1)) as [i|];
      [destruct (truthy i)|]; by inversion Hsandbox. }
  destruct Ha2 as [Hst Hreg].
  destruct (appServiceThrows (Registry.SetTitle newName)).
  - destruct (broadcast_effect WS.PROJECT_NAME_UPDATED (Some "Project name updated")
                (Some newName) a2) as [acc ->].
    intros Heq. discriminate Heq.
  - destruct (registry a2) as [row|] eqn:Hrow; simpl.
    + destruct (broadcast_effect WS.PROJECT_NAME_UPDATED (Some "Project name updated")
                  (Some newName)
                  (with_registry a2
                     (Some {| Registry.title := newName;
                              Registry.status := Registry.status row |})))
        as [acc ->].
      intros Heq. inversion Heq as [[Hok Ha']]. simpl. rewrite Hst.
      split; [done|]. split; [|done]. by eexists.
    + destruct (broadcast_effect WS.PROJECT_NAME_UPDATED (Some "Project name updated")
                  (Some newName) (with_registry a2 None)) as [acc ->].
      rewrite andb_false_r. intros Heq. discriminate Heq.
Qed.

End Rename.

Lemma C9_invalid_name_changes_nothing_witness :
  Agent.validProjectName "My App" = false
  ∧ Agent.updateProjectName (H := Fixtures.quiet) "My App" Fixtures.agent0
    = (false, Fixtures.agent0).
Proof.
  assert (Hinvalid : Agent.validProjectName "My App" = false) by reflexivity.
  split; [exact Hinvalid|].
  exact (C9_invalid_name_changes_nothing (H := Fixtures.quiet) "My App"
           Fixtures.agent0 Hinvalid).
Defined.

Lemma C2_successful_rename_witness :
  let renamed := (Agent.updateProjectName (H := Fixtures.quiet) "my-app_1" Fixtures.agent0).2 in
  Agent.updateProjectName (H := Fixtures.quiet) "my-app_1" Fixtures.agent0 = (true, renamed)
  ∧ Blueprint.projectName (CodeGenState.blueprint (Agent.state renamed)) = "my-app_1"
  ∧ (∃ row, Agent.registry renamed = Some row ∧ Registry.title row = "my-app_1")
  ∧ CodeGenState.projectName (Agent.state renamed) = "todo-x1y2z3".
Proof.
  intros renamed.
  assert (Hok : Agent.updateProjectName (H := Fixtures.quiet) "my-app_1" Fixtures.agent0
                = (true, renamed)) by reflexivity.
  split; [exact Hok|].
  exact (C2_successful_rename (H := Fixtures.quiet) "my-app_1" Fixtures.agent0 renamed Hok).
Defined.

(** C2 as stated fails: the rename below returns [true], yet the state's
    own [projectName] is still the generated one. *)
Lemma C2_counterexample :
  let r := Agent.updateProjectName (H := Fixtures.quiet) "my-app_1" Fixtures.agent0 in
  ¬ (r.1 = true →
     Blueprint.projectName (CodeGenState.blueprint (Agent.state r.2)) = "my-app_1"
     ∧ CodeGenState.projectName (Agent.state r.2) = "my-app_1"
     ∧ (∃ row, Agent.registry r.2 = Some row ∧ Registry.title row = "my-app_1")).
Proof.
  intros r Hall. destruct (Hall eq_refl) as (_ & Hname & _).
  vm_compute in Hname. discriminate Hname.
Qed.

(** ** The agent: where a run starts *)

Section StartState.
Import State Agent.
Context `{Collaborators}.

Lemma last_filter_find {A} (f : A → bool) (l : list A) :
  last (List.filter f l) = List.find f (rev l).
Proof.
  induction l as [|x l IH] using rev_ind; [done|].
  rewrite List.filter_app, rev_app_distr. simpl.
  destruct (f x); simpl.
  - by rewrite last_snoc.
  - by rewrite app_nil_r.
Qed.

Lemma chooseStart_per_spec (a : Agent.t) :
  chooseStart a = (inl (startPerSpec a).1, (startPerSpec a).2).
Proof.
  unfold chooseStart, startPerSpec, lastIncomplete, bind, getState, ret.
  set (phases := CodeGenState.generatedPhases (state a)).
  rewrite <- last_filter_find, last_lookup.
  set (inc := List.filter _ phases).
  assert (Hpred : pred (length inc) = (length inc - 1)%nat) by lia.
  rewrite Hpred.
  destruct inc as [|p inc'] eqn:Hinc.
  - simpl. destruct phases as [|q phases'] eqn:Hphases; simpl; [|done].
    unfold createNewIncompletePhase, bind, getState, setState.
    simpl. fold phases. by rewrite Hphases.
  - assert (Hsome : is_Some ((p :: inc') !! (length (p :: inc') - 1)%nat)).
    { apply lookup_lt_is_Some. simpl. lia. }
    destruct Hsome as [q Hq]. rewrite Hq. simpl. done.
Qed.

Lemma launchPrologue_start (reviewCycles : Z) (a : Agent.t) :
  (launchPrologue reviewCycles a).1
  = if templateDetailsLoad (state a) then inl (startPerSpec a).1
    else inr OtherError.
Proof.
  unfold launchPrologue, ensureTemplateDetails, bind at 1.
  unfold bind at 1, getState.
  destruct (templateDetailsLoad (state a)); [|done].
  unfold ret, bind at 1. by rewrite chooseStart_per_spec.
Qed.

(** C5.  The start of a run is chosen as the specification says: the
    last phase of [generatedPhases] that is not completed, if there is
    one, is implemented ([PHASE_IMPLEMENTING]); else, if a phase exists,
    the run starts in [PHASE_GENERATING]; else the blueprint's initial
    phase is recorded as a new incomplete phase and implemented; the run
    starts there unless loading the template details throws.  For the
    stored phases [Setup completed, API incomplete] the start is
    [PHASE_IMPLEMENTING] on ["API"]. *)
Theorem C5_start_state (reviewCycles : Z) (a : Agent.t) :
  chooseStart a = (inl (startPerSpec a).1, (startPerSpec a).2)
  ∧ (launchPrologue reviewCycles a).1
    = (if templateDetailsLoad (state a) then inl (startPerSpec a).1
       else inr OtherError)
  ∧ (let resumed :=
       with_state a
         (CodeGenState.with_generatedPhases (state a)
            [ {| concept := Fixtures.setupPhase; completed := true |};
              {| concept := Fixtures.apiPhase; completed := false |} ]) in
     (chooseStart resumed).1
     = inl {| startState := PHASE_IMPLEMENTING;
              startPhase := Some Fixtures.apiPhase |}
     ∧ name Fixtures.apiPhase = "API").
Proof.
  split; [apply chooseStart_per_spec|].
  split; [apply launchPrologue_start|].
  cbv zeta. split; [|done]. by rewrite chooseStart_per_spec.
Qed.

End StartState.

(** ** The agent: leaving [PHASE_IMPLEMENTING] *)

Section PhaseImplementation.
Import State Agent.
Context `{Collaborators}.

Lemma afterImplementation_spec ph cache (a : Agent.t) :
  let counter := CodeGenState.phasesCounter (state a) - 1 in
  let a' := with_state a (CodeGenState.with_phasesCounter (state a) counter) in
  afterImplementation ph cache a
  = (inl {| currentDevState :=
              if (lastPhase ph || (counter <=? 0))
                 && (length (CodeGenState.pendingUserInputs (state a)) =? 0)%nat
              then FINALIZING else PHASE_GENERATING;
            result := None; resultStaticAnalysis := cache;
            resultUserContext := None |}, a').
Proof.
  unfold afterImplementation, decrementPhasesCounter, bind, getState, setState,
    ret, getPhasesCounter. simpl.
  by destruct ((lastPhase ph || _) && _).
Qed.

(** C6.  When the phase [ph] found by [executePhaseImplementation] is
    implemented without error, [phasesCounter] ends one below its value
    at the end of the implementation, and the step returns [FINALIZING]
    exactly when ([ph.lastPhase] or the decremented counter is at most
    0) and no user input is pending; otherwise it returns
    [PHASE_GENERATING]. *)
Theorem C6_transition_after_implementation
    (phaseConcept : option PhaseConceptType)
    (cache : option StaticAnalysisResponse) (userContext : option UserContext)
    (a a0 a1 a2 : Agent.t) (ph : PhaseConceptType) (issues : AllIssues) :
  resolvePhase phaseConcept a = (inl (Some ph), a0) →
  collectIssues cache a0 = (inl issues, a1) →
  implementPhase ph issues userContext a1 = (inl tt, a2) →
  ∃ r a3,
    executePhaseImplementation phaseConcept cache userContext a = (inl r, a3)
    ∧ CodeGenState.phasesCounter (state a3) = CodeGenState.phasesCounter (state a2) - 1
    ∧ CodeGenState.pendingUserInputs (state a3) = CodeGenState.pendingUserInputs (state a2)
    ∧ (currentDevState r = FINALIZING
       ↔ (lastPhase ph = true ∨ CodeGenState.phasesCounter (state a3) ≤ 0)
         ∧ CodeGenState.pendingUserInputs (state a3) = [])
    ∧ (currentDevState r = FINALIZING ∨ currentDevState r = PHASE_GENERATING).
Proof.
  intros Hresolve Hissues Himpl.
  unfold executePhaseImplementation, tryCatch, bind.
  rewrite Hresolve, Hissues, Himpl, afterImplementation_spec.
  eexists _, _. split; [reflexivity|]. simpl.
  split; [done|]. split; [done|].
  set (counter := CodeGenState.phasesCounter (state a2) - 1).
  destruct (CodeGenState.pendingUserInputs (state a2)) as [|u us]; simpl.
  - rewrite andb_true_r.
    destruct (lastPhase ph); simpl.
    + split; [|by left]. split; [by auto|done].
    + destruct (counter <=? 0) eqn:Hc.
      * apply Z.leb_le in Hc. split; [|by left]. split; [by auto|done].
      * apply Z.leb_gt in Hc. split; [|by right].
        split; [discriminate|]. intros [[Hl|Hle] _]; [discriminate|lia].
  - rewrite andb_false_r. split; [|by right].
    split; [discriminate|]. intros [_ Hnil]. discriminate Hnil.
Qed.

End PhaseImplementation.

Lemma C6_transition_after_implementation_witness :
  let a := Fixtures.agent0 in
  let a1 := (Agent.collectIssues (H := Fixtures.quiet) None a).2 in
  let issues :=
    {| Agent.runtimeErrors := [];
       Agent.staticAnalysis :=
         {| Agent.success := true; Agent.lint := []; Agent.typecheck := [] |} |} in
  let a2 := (Agent.implementPhase (H := Fixtures.quiet) Fixtures.apiPhase issues None a1).2 in
  ∃ r a3,
    Agent.executePhaseImplementation (H := Fixtures.quiet)
      (Some Fixtures.apiPhase) None None a = (inl r, a3)
    ∧ CodeGenState.phasesCounter (Agent.state a3) = 11
    ∧ Agent.currentDevState r = State.PHASE_GENERATING.
Proof.
  intros a a1 issues a2.
  destruct (C6_transition_after_implementation (H := Fixtures.quiet)
              (Some Fixtures.apiPhase) None None a a a1 a2 Fixtures.apiPhase issues
              eq_refl eq_refl eq_refl)
    as (r & a3 & Hrun & Hcounter & _ & Hfinal & Hstate).
  exists r, a3. split; [exact Hrun|]. split; [exact Hcounter|].
  destruct Hstate as [Hf|Hg]; [|exact Hg].
  apply Hfinal in Hf. destruct Hf as [[Hl|Hle] _].
  - discriminate Hl.
  - rewrite Hcounter in Hle. vm_compute in Hle. exfalso. by apply Hle.
Defined.

(** ** The [deep_debug] tool: one call per turn *)

Section DeepDebugOncePerTurn.
Import Agent DeepDebugTool.
Context `{Collaborators}.

(** C3 (the code at the failing input).  In one turn, a [deep_debug]
    call made while code generation is running is answered with
    [GENERATION_IN_PROGRESS] and is counted; whatever the agent has become
    afterwards (for instance once [wait_for_generation] has returned), the
    next call of the same turn is answered with [CALL_LIMIT_EXCEEDED] and
    runs no debug session.  A tool created for a new turn does produce a
    transcript on the settled agent. *)
Theorem C3_retry_in_same_turn_is_refused
    (a later : Agent.t) (run : nat) (issue : string) (focus_paths : list string) :
  let generating := with_generationPromise a (Some run) in
  let counted := {| callCount := 1 |} in
  implementation issue focus_paths createDeepDebuggerTool generating
  = (inl (Error GENERATION_IN_PROGRESS), counted, generating)
  ∧ implementation issue focus_paths counted later
    = (inl (Error CALL_LIMIT_EXCEEDED), counted, later)
  ∧ (implementation (H := Fixtures.quiet) "fix the crash" []
       counted (generationSettled (with_generationPromise Fixtures.agent0 (Some 0%nat)))).1.1
    = inl (Error CALL_LIMIT_EXCEEDED)
  ∧ (implementation (H := Fixtures.quiet) "fix the crash" []
       createDeepDebuggerTool
       (generationSettled (with_generationPromise Fixtures.agent0 (Some 0%nat)))).1.1
    = inl (Transcript "TASK_COMPLETE: fixed").
Proof.
  intros generating counted. repeat split.
Qed.

End DeepDebugOncePerTurn.

(** ** The deep debugger: the repetition guard *)

Section LoopGuard.
Import DeepCodeDebugger.

(** C4 (the code at the failing input).  The wrapper runs the tool
    whether or not the repetition guard fires: its result and its effect
    on the world are those of the tool itself.  When the guard fires the
    warning is appended to the conversation, and only then.  With three
    identical calls of [read_files] the guard fires at the third call
    (not before), the warning is injected, and the tool has run three
    times. *)
Theorem C4_guard_warns_but_tool_runs {World Result : Type} (name : string)
    (tool : string → World → Result * World) (argsStr : string) (now : Z)
    (d : DeepCodeDebugger.t) (w : World) :
  let out := wrappedImplementation name tool argsStr now d w in
  (out.1.1, out.2) = tool argsStr w
  ∧ history out.1.2
    = (if (detectRepetition name argsStr now d).1
       then history d
              ++ [UserMessage
                    (warningMessage name (S (repetitionWarnings (loopDetection d))))]
       else history d)
  ∧ (let count : string → nat → unit * nat := fun _ n => (tt, S n) in
     let call t '(dbg, n) :=
       let r := wrappedImplementation "read_files" count "{paths:[src/App.tsx]}" t dbg n in
       (r.1.2, r.2) in
     let two := call 1000 (call 0 (create, 0%nat)) in
     let three := call 2000 two in
     history two.1 = []
     ∧ (detectRepetition "read_files" "{paths:[src/App.tsx]}" 2000 two.1).1 = true
     ∧ history three.1 = [UserMessage (warningMessage "read_files" 1)]
     ∧ three.2 = 3%nat).
Proof.
  intros out. subst out. unfold wrappedImplementation.
  destruct (detectRepetition name argsStr now d) as [repeated d1] eqn:Hdetect.
  assert (Hd1 : history d1 = history d
                ∧ repetitionWarnings (loopDetection d1)
                  = repetitionWarnings (loopDetection d)).
  { unfold detectRepetition in Hdetect. by inversion Hdetect. }
  destruct Hd1 as [Hhist Hwarn].
  destruct (tool argsStr w) as [r w'] eqn:Htool. simpl.
  split; [done|]. split.
  - destruct repeated; simpl; [|done]. by rewrite Hhist, Hwarn.
  - vm_compute. repeat split.
Qed.

End LoopGuard.

(** ** State migration *)

Section ConversationCleanup.
Import StateMigration.

Lemma messageKey_id now m : hasId m → messageKey now m = conversationId m.
Proof. unfold hasId, messageKey. by intros ->. Qed.

Lemma dedup_clock_independent c1 c2 msgs :
  Forall hasId msgs →
  ∀ i j seen, dedup c1 i seen msgs = dedup c2 j seen msgs.
Proof.
  induction 1 as [|m msgs Hm _ IH]; intros i j seen; simpl; [done|].
  rewrite !(messageKey_id _ m Hm).
  destruct (decide (conversationId m ∈ seen)); [apply IH|].
  f_equal. apply IH.
Qed.

Lemma dedup_sublist c msgs : ∀ i seen, sublist (dedup c i seen msgs) msgs.
Proof.
  induction msgs as [|m msgs IH]; intros i seen; simpl; [done|].
  destruct (decide (_ ∈ seen)).
  - apply sublist_cons. apply IH.
  - apply sublist_skip. apply IH.
Qed.

Lemma dedup_fresh c msgs :
  Forall hasId msgs →
  ∀ i seen,
    NoDup (conversationId <$> dedup c i seen msgs)
    ∧ ∀ m, m ∈ dedup c i seen msgs → conversationId m ∉ seen.
Proof.
  induction 1 as [|m msgs Hm _ IH]; intros i seen; simpl.
  - split; [constructor|]. intros m Hin. by apply elem_of_nil in Hin.
  - rewrite (messageKey_id _ m Hm).
    destruct (decide (conversationId m ∈ seen)) as [Hseen|Hnew]; [apply IH|].
    destruct (IH (S i) ({[conversationId m]} ∪ seen)) as [Hnd Hout].
    split.
    + simpl. constructor; [|done].
      intros Hin. apply list_elem_of_fmap in Hin as (x & Hx & Hxin).
      apply (Hout x Hxin). rewrite <- Hx.
      apply elem_of_union. left. by apply elem_of_singleton.
    + intros x Hx. apply elem_of_cons in Hx as [->|Hx]; [done|].
      specialize (Hout x Hx). intros Hin. apply Hout.
      apply elem_of_union. by right.
Qed.

Lemma dedup_id c msgs :
  Forall hasId msgs →
  ∀ i seen,
    NoDup (conversationId <$> msgs) →
    (∀ m, m ∈ msgs → conversationId m ∉ seen) →
    dedup c i seen msgs = msgs.
Proof.
  induction 1 as [|m msgs Hm _ IH]; intros i seen Hnd Hout; simpl; [done|].
  rewrite (messageKey_id _ m Hm).
  destruct (decide (conversationId m ∈ seen)) as [Hseen|Hnew].
  - exfalso. apply (Hout m); [by left|done].
  - f_equal. simpl in Hnd. apply NoDup_cons in Hnd as [Hm' Hnd].
    apply IH; [done|]. intros x Hx Hin.
    apply elem_of_union in Hin as [Hin|Hin].
    + apply elem_of_singleton in Hin. apply Hm'. rewrite <- Hin.
      apply list_elem_of_fmap. by exists x.
    + apply (Hout x); [by right|done].
Qed.

Lemma insertByTimestamp_perm m l : insertByTimestamp m l ≡ₚ m :: l.
Proof.
  induction l as [|x l IH]; simpl; [done|].
  destruct (getTimestamp m <=? getTimestamp x); [done|].
  rewrite IH. apply Permutation_swap.
Qed.

Lemma sortByTimestamp_perm l : sortByTimestamp l ≡ₚ l.
Proof.
  induction l as [|x l IH]; simpl; [done|].
  rewrite insertByTimestamp_perm. by rewrite IH.
Qed.

Lemma insertByTimestamp_sorted m l :
  StronglySorted byTimestamp l → StronglySorted byTimestamp (insertByTimestamp m l).
Proof.
  induction 1 as [|x l Hl IH Hx]; simpl.
  - repeat constructor.
  - destruct (getTimestamp m <=? getTimestamp x) eqn:Hle.
    + apply Z.leb_le in Hle. constructor; [by constructor|].
      constructor; [done|].
      eapply Forall_impl; [exact Hx|]. unfold byTimestamp. intros y Hy. lia.
    + apply Z.leb_gt in Hle. constructor; [done|].
      rewrite insertByTimestamp_perm. constructor; [|done].
      unfold byTimestamp. lia.
Qed.

Lemma sortByTimestamp_sorted l : StronglySorted byTimestamp (sortByTimestamp l).
Proof.
  induction l as [|x l IH]; simpl; [constructor|].
  by apply insertByTimestamp_sorted.
Qed.

Lemma sortByTimestamp_id l :
  StronglySorted byTimestamp l → sortByTimestamp l = l.
Proof.
  induction 1 as [|x l Hl IH Hx]; simpl; [done|].
  rewrite IH. destruct l as [|y l]; simpl; [done|].
  apply Forall_cons in Hx as [Hxy _]. unfold byTimestamp in Hxy.
  apply Z.leb_le in Hxy. by rewrite Hxy.
Qed.

Lemma filter_sorted (f : Message → bool) l :
  StronglySorted byTimestamp l → StronglySorted byTimestamp (List.filter f l).
Proof.
  induction 1 as [|x l Hl IH Hx]; simpl; [constructor|].
  destruct (f x); [|done]. constructor; [done|].
  apply Forall_forall. intros y Hy.
  apply list_elem_of_In, List.filter_In in Hy as [Hy _].
  rewrite Forall_forall in Hx. apply Hx. by apply list_elem_of_In.
Qed.

Lemma filter_sublist {A} (f : A → bool) (l : list A) : sublist (List.filter f l) l.
Proof.
  induction l as [|x l IH]; simpl; [done|].
  destruct (f x); [by apply sublist_skip | by apply sublist_cons].
Qed.

Lemma filter_filter {A} (f : A → bool) (l : list A) :
  List.filter f (List.filter f l) = List.filter f l.
Proof.
  induction l as [|x l IH]; simpl; [done|].
  destruct (f x) eqn:Hf; simpl; [|done]. by rewrite Hf, IH.
Qed.

Lemma cleanConversation_clean c l : clean l → cleanConversation c l = l.
Proof.
  intros [Hids Hnd Hsorted Hmemos]. unfold cleanConversation.
  rewrite (dedup_id c l Hids 0%nat ∅ Hnd)
    by (intros m _ Hin; by apply elem_of_empty in Hin).
  rewrite (sortByTimestamp_id l Hsorted).
  destruct (MIN_MESSAGES_FOR_CLEANUP <? length l)%nat eqn:Hlen; [|done].
  apply Hmemos. by apply Nat.ltb_lt.
Qed.

Lemma nodup_ids_sublist (l k : list Message) :
  sublist l k → NoDup (conversationId <$> k) → NoDup (conversationId <$> l).
Proof.
  intros Hsub Hnd. eapply sublist_NoDup; [exact Hnd|]. by apply fmap_sublist.
Qed.

Lemma sublist_Forall {A} (P : A → Prop) (l k : list A) :
  sublist l k → Forall P k → Forall P l.
Proof.
  intros Hsub Hall. apply Forall_forall. intros x Hx.
  rewrite Forall_forall in Hall. apply Hall.
  by eapply elem_of_sublist.
Qed.

Lemma cleanConversation_is_clean c l :
  Forall hasId l → clean (cleanConversation c l).
Proof.
  intros Hids. unfold cleanConversation.
  set (u := sortByTimestamp (dedup c 0 ∅ l)).
  assert (Hu_ids : Forall hasId u).
  { subst u. rewrite sortByTimestamp_perm.
    eapply sublist_Forall; [apply dedup_sublist|done]. }
  assert (Hu_nd : NoDup (conversationId <$> u)).
  { subst u. rewrite sortByTimestamp_perm. by apply dedup_fresh. }
  assert (Hu_sorted : StronglySorted byTimestamp u)
    by apply sortByTimestamp_sorted.
  destruct (MIN_MESSAGES_FOR_CLEANUP <? length u)%nat eqn:Hlen.
  - constructor.
    + eapply sublist_Forall; [apply filter_sublist|done].
    + eapply nodup_ids_sublist; [apply filter_sublist|done].
    + by apply filter_sorted.
    + intros _. apply filter_filter.
  - constructor; try done.
    intros Hlong. apply Nat.ltb_ge in Hlen. lia.
Qed.

Lemma cleanConversation_clock_independent c1 c2 l :
  Forall hasId l → cleanConversation c1 l = cleanConversation c2 l.
Proof.
  intros Hids. unfold cleanConversation.
  by rewrite (dedup_clock_independent c1 c2 l Hids 0%nat 0%nat ∅).
Qed.

End ConversationCleanup.

Section MigrationFixedPoint.
Import StateMigration.
Context `{NameGenerator}.

Lemma hasOldFormat_migrateFile f : hasOldFormat (migrateFile f) = false.
Proof. unfold migrateFile. by destruct (hasOldFormat f) eqn:Hold. Qed.

Lemma clean_nil : clean [].
Proof.
  constructor; [constructor | constructor | constructor | reflexivity].
Qed.

Lemma settled_needs_nothing env s : settled s → migrateIfNeeded env s = None.
Proof.
  intros [Hfiles Hconv Hkeys Hshot Hacc Htpl Hname].
  unfold migrateIfNeeded.
  rewrite (bool_decide_eq_true_2 _ Hfiles).
  rewrite (cleanConversation_clean (clock env) _ Hconv).
  assert (Hsame : (if (0 <? length (conversationMessages s))%nat
                   then conversationMessages s else conversationMessages s)
                  = conversationMessages s) by (by destruct (0 <? _)%nat).
  rewrite Hsame, Nat.eqb_refl, Hshot, Htpl, Hname.
  destruct Hacc as [acc ->].
  destruct (inferenceContext s) as [ic|]; [rewrite Hkeys|]; reflexivity.
Qed.

Lemma migrated_is_settled env s s' :
  (∀ base id n, truthy (generateProjectName base id n) = true) →
  Forall hasId (conversationMessages s) →
  migrateIfNeeded env s = Some s' → settled s'.
Proof.
  intros Hgen Hids. unfold migrateIfNeeded.
  destruct (_ || _); [|discriminate].
  intros Heq. inversion Heq as [Hs']. clear Heq Hs'.
  constructor; simpl.
  - apply map_Forall_fmap. intros k f _. simpl. apply hasOldFormat_migrateFile.
  - destruct (0 <? length (conversationMessages s))%nat eqn:Hlen.
    + by apply cleanConversation_is_clean.
    + destruct (conversationMessages s); [apply clean_nil|discriminate].
  - destruct (inferenceContext s) as [ic|]; simpl; [|done].
    destruct (present (userApiKeys ic)) eqn:Hp; simpl; [done|].
    by destruct (userApiKeys ic).
  - done.
  - by eexists.
  - done.
  - destruct (negb (truthy (projectName s))) eqn:Hmissing.
    + apply Hgen.
    + by apply negb_false_iff in Hmissing.
Qed.

Lemma unneeded_for_any_clock env1 env2 s :
  Forall hasId (conversationMessages s) →
  migrateIfNeeded env1 s = None → migrateIfNeeded env2 s = None.
Proof.
  intros Hids. unfold migrateIfNeeded.
  rewrite (cleanConversation_clock_independent (clock env2) (clock env1) _ Hids).
  destruct (_ || _); [discriminate|done].
Qed.

(** C8 (amended).  For every stored state whose conversation messages
    all carry a [conversationId], and a name generator that never yields
    the empty name, migrating the already migrated state changes nothing:
    on the result of a first migration (the migrated state, or the state
    itself when none was needed) [migrateIfNeeded] returns null, whatever
    the clock and the identifier drawn by either run. *)
Theorem C8_migration_fixed_point (env1 env2 : Env) (s : StoredState) :
  (∀ base id n, truthy (generateProjectName base id n) = true) →
  Forall hasId (conversationMessages s) →
  migrateIfNeeded env2 (migrate env1 s) = None.
Proof.
  intros Hgen Hids. unfold migrate.
  destruct (migrateIfNeeded env1 s) as [s'|] eqn:Hfirst; simpl.
  - apply settled_needs_nothing. by eapply migrated_is_settled.
  - by eapply unneeded_for_any_clock.
Qed.

End MigrationFixedPoint.

Lemma dashedName_truthy base id n :
  truthy (StateMigration.generateProjectName (NameGenerator := Fixtures.dashedName) base id n)
  = true.
Proof.
  unfold StateMigration.generateProjectName, Fixtures.dashedName, truthy.
  destruct (String.substring 0 n base); reflexivity.
Qed.

Lemma C8_migration_fixed_point_witness :
  (∀ base id n,
      truthy (StateMigration.generateProjectName (NameGenerator := Fixtures.dashedName)
                base id n) = true)
  ∧ Forall StateMigration.hasId
           (StateMigration.conversationMessages Fixtures.legacyState)
  ∧ StateMigration.migrateIfNeeded (H := Fixtures.dashedName) Fixtures.instantRun
      (StateMigration.migrate (H := Fixtures.dashedName) Fixtures.tickingRun
         Fixtures.legacyState) = None.
Proof.
  assert (Hids : Forall StateMigration.hasId
                        (StateMigration.conversationMessages Fixtures.legacyState)).
  { repeat constructor. }
  split; [exact dashedName_truthy|]. split; [exact Hids|].
  exact (C8_migration_fixed_point (H := Fixtures.dashedName) Fixtures.tickingRun
           Fixtures.instantRun Fixtures.legacyState dashedName_truthy Hids).
Defined.

(** C8 as stated fails on a conversation that holds the same message twice
    without [conversationId]: such messages are keyed by the clock.  In a
    first run during which the clock advances both are kept and no
    migration is needed; in a second run within one millisecond they get
    the same key, one is dropped and a migrated state is returned. *)
Lemma C8_counterexample :
  StateMigration.migrateIfNeeded (H := Fixtures.dashedName) Fixtures.tickingRun
    Fixtures.anonymousTwice = None
  ∧ ¬ (StateMigration.migrateIfNeeded (H := Fixtures.dashedName) Fixtures.instantRun
         (StateMigration.migrate (H := Fixtures.dashedName) Fixtures.tickingRun
            Fixtures.anonymousTwice) = None).
Proof.
  split.
  - vm_compute. reflexivity.
  - intros Hnone. vm_compute in Hnone. discriminate Hnone.
Qed.

(* ================================================================== *)
(** * Further properties of the modelled code *)
(* ================================================================== *)

(** ** The agent: user requests and the phase counter *)

Section UserRequests.
Import State Agent.

Lemma queueUserRequest_effect (request : string) (imgs : list string)
    (a : Agent.t) :
  ∃ a',
    queueUserRequest request imgs a = (inl tt, a')
    ∧ CodeGenState.phasesCounter (state a')
      = Z.max (CodeGenState.phasesCounter (state a)) 3
    ∧ CodeGenState.pendingUserInputs (state a')
      = CodeGenState.pendingUserInputs (state a) ++ [request]
    ∧ pendingUserImages a' = pendingUserImages a ++ imgs
    ∧ state a'
      = CodeGenState.with_pendingUserInputs
          (CodeGenState.with_phasesCounter (state a)
             (Z.max (CodeGenState.phasesCounter (state a)) 3))
          (CodeGenState.pendingUserInputs (state a) ++ [request]).
Proof.
  unfold queueUserRequest, rechargePhasesCounter, bind, getState, setState,
    getAgent, putAgent, ret, getPhasesCounter.
  destruct a as [s gp dp pimgs la ob reg sr]. simpl.
  destruct (CodeGenState.phasesCounter s <=? 3) eqn:Hle; simpl.
  - apply Z.leb_le in Hle. rewrite (Z.max_r _ 3) by lia.
    destruct imgs as [|img imgs]; simpl; eexists;
      (split; [reflexivity|]); simpl; rewrite ?app_nil_r; done.
  - apply Z.leb_gt in Hle. rewrite (Z.max_l _ 3) by lia.
    destruct imgs as [|img imgs]; simpl; eexists;
      (split; [reflexivity|]); simpl; rewrite ?app_nil_r;
      (repeat split; try done); by destruct s.
Qed.

(** X1.  [queueUserRequest] appends the request to [pendingUserInputs],
    raises [phasesCounter] to 3 when it is lower and leaves it alone
    otherwise, appends the images to the ones kept in memory, and changes
    nothing else of the state. *)
Theorem X1_queueUserRequest_recharges (request : string) (imgs : list string)
    (a : Agent.t) :
  ∃ a',
    queueUserRequest request imgs a = (inl tt, a')
    ∧ CodeGenState.phasesCounter (state a')
      = Z.max (CodeGenState.phasesCounter (state a)) 3
    ∧ CodeGenState.pendingUserInputs (state a')
      = CodeGenState.pendingUserInputs (state a) ++ [request]
    ∧ pendingUserImages a' = pendingUserImages a ++ imgs
    ∧ state a'
      = CodeGenState.with_pendingUserInputs
          (CodeGenState.with_phasesCounter (state a)
             (Z.max (CodeGenState.phasesCounter (state a)) 3))
          (CodeGenState.pendingUserInputs (state a) ++ [request]).
Proof. apply queueUserRequest_effect. Qed.

(** X2.  A request that is queued is what the next
    [fetchPendingUserRequests] returns, after the requests queued before
    it; the fetch empties the queue, so that a second fetch returns
    nothing and changes nothing. *)
Theorem X2_queue_then_fetch (request : string) (imgs : list string) (a : Agent.t) :
  ∃ a1 a2,
    queueUserRequest request imgs a = (inl tt, a1)
    ∧ fetchPendingUserRequests a1
      = (inl (CodeGenState.pendingUserInputs (state a) ++ [request]), a2)
    ∧ CodeGenState.pendingUserInputs (state a2) = []
    ∧ CodeGenState.phasesCounter (state a2) = CodeGenState.phasesCounter (state a1)
    ∧ fetchPendingUserRequests a2 = (inl [], a2).
Proof.
  destruct (queueUserRequest_effect request imgs a)
    as (a1 & Hq & _ & Hpending & _ & _).
  exists a1. unfold fetchPendingUserRequests, bind, getState, setState, ret.
  rewrite Hpending.
  destruct (CodeGenState.pendingUserInputs (state a)) as [|u us]; simpl;
    eexists; (split; [exact Hq|]); (split; [reflexivity|]); simpl; done.
Qed.

End UserRequests.

(** ** The agent: phases *)

Section Phases.
Import State Agent.

Lemma markPhaseComplete_effect (phaseName : string) (a : Agent.t) :
  let mark (p : PhaseState) :=
    if String.eqb (name p) phaseName
    then {| concept := concept p; completed := true |} else p in
  markPhaseComplete phaseName a
  = (inl tt,
     with_state a
       (CodeGenState.with_generatedPhases (state a)
          (map mark (CodeGenState.generatedPhases (state a))))).
Proof.
  intros mark. unfold markPhaseComplete, bind, getState, setState, ret.
  destruct (existsb _ _) eqn:Hex; simpl; [done|].
  f_equal.
  assert (Hsame : map mark (CodeGenState.generatedPhases (state a))
                  = CodeGenState.generatedPhases (state a)).
  { induction (CodeGenState.generatedPhases (state a)) as [|p ps IH]; [done|].
    simpl in Hex. apply orb_false_iff in Hex as [Hp Hps].
    simpl. rewrite (IH Hps). subst mark. simpl. by rewrite Hp. }
  rewrite Hsame. by destruct a as [[] ? ? ? ? ? ? ?].
Qed.

(** X3.  [markPhaseComplete] keeps the phases, their order and their
    concepts; afterwards every phase with the given name is completed, and
    a phase with another name is as it was.  With no phase of that name the
    agent is unchanged. *)
Theorem X3_markPhaseComplete (phaseName : string) (a : Agent.t) :
  ∃ a',
    markPhaseComplete phaseName a = (inl tt, a')
    ∧ map concept (CodeGenState.generatedPhases (state a'))
      = map concept (CodeGenState.generatedPhases (state a))
    ∧ (∀ (i : nat) (p p' : PhaseState),
          CodeGenState.generatedPhases (state a) !! i = Some p →
          CodeGenState.generatedPhases (state a') !! i = Some p' →
          if String.eqb (name p) phaseName then completed p' = true else p' = p)
    ∧ (existsb (fun p : PhaseState => String.eqb (name p) phaseName)
               (CodeGenState.generatedPhases (state a)) = false → a' = a).
Proof.
  rewrite markPhaseComplete_effect. eexists. split; [reflexivity|]. simpl.
  split; [|split].
  - rewrite map_map. apply map_ext. intros p.
    by destruct (String.eqb (name p) phaseName).
  - intros i p p' Hp Hp'. rewrite list_lookup_fmap, Hp in Hp'. simpl in Hp'.
    inversion Hp' as [Heq]. clear Hp' Heq.
    by destruct (String.eqb (name p) phaseName).
  - intros Hnone. unfold markPhaseComplete, bind, getState, ret.
    pose proof (markPhaseComplete_effect phaseName a) as Heff.
    unfold markPhaseComplete, bind, getState, setState, ret in Heff.
    rewrite Hnone in Heff. simpl in Heff. injection Heff as Ha. by rewrite <- Ha.
Qed.

End Phases.

(** ** The agent: the steps of the state machine *)

Section MachineSteps.
Import State Agent.
Context `{Collaborators}.

Lemma createNewIncompletePhase_effect (ph : PhaseConceptType) (a : Agent.t) :
  createNewIncompletePhase ph a
  = (inl tt,
     with_state a
       (CodeGenState.with_generatedPhases (state a)
          (CodeGenState.generatedPhases (state a)
             ++ [{| concept := ph; completed := false |}]))).
Proof. reflexivity. Qed.

(** X4.  A phase that has just been recorded as incomplete is the one a
    run resumes: after [createNewIncompletePhase ph], whatever the phases
    stored before, the start is [PHASE_IMPLEMENTING] on [ph], and choosing
    the start changes nothing. *)
Theorem X4_new_phase_is_resumed (ph : PhaseConceptType) (a : Agent.t) :
  ∃ a',
    createNewIncompletePhase ph a = (inl tt, a')
    ∧ chooseStart a'
      = (inl {| startState := PHASE_IMPLEMENTING; startPhase := Some ph |}, a').
Proof.
  rewrite createNewIncompletePhase_effect. eexists. split; [reflexivity|].
  rewrite chooseStart_per_spec. unfold startPerSpec, lastIncomplete. simpl.
  by rewrite rev_app_distr.
Qed.

(** X5.  [executePhaseGeneration] and [executePhaseImplementation] let
    only [RateLimitExceededError] escape; every other error ends in the
    state [IDLE].  Phase generation returns [IDLE], [FINALIZING] or
    [PHASE_IMPLEMENTING], the latter exactly when it returns a phase;
    phase implementation returns [IDLE], [FINALIZING] or
    [PHASE_GENERATING]. *)
Theorem X5_steps_contain_errors
    (phaseConcept : option PhaseConceptType)
    (cache : option StaticAnalysisResponse) (userContext : option UserContext)
    (a : Agent.t) :
  match (executePhaseGeneration a).1 with
  | inl r =>
      (currentDevState r = IDLE ∨ currentDevState r = FINALIZING
       ∨ currentDevState r = PHASE_IMPLEMENTING)
      ∧ (currentDevState r = PHASE_IMPLEMENTING ↔ is_Some (result r))
  | inr e => e = RateLimitExceededError
  end
  ∧ match (executePhaseImplementation phaseConcept cache userContext a).1 with
    | inl r =>
        currentDevState r = IDLE ∨ currentDevState r = FINALIZING
        ∨ currentDevState r = PHASE_GENERATING
    | inr e => e = RateLimitExceededError
    end.
Proof.
  split.
  - unfold executePhaseGeneration, tryCatch.
    match goal with |- context [match ?body a with _ => _ end] =>
      destruct (body a) as [[r|e] a1] eqn:Hbody end.
    + simpl. revert Hbody. unfold bind.
      destruct (fetchAllIssues false a) as [[issues|e0] a2]; [|discriminate].
      destruct (fetchPendingUserRequests a2) as [[pending|e0] a3]; [|discriminate].
      unfold getAgent.
      match goal with |- context [match ?m a3 with _ => _ end] =>
        destruct (m a3) as [[u|e0] a4] end; [|discriminate].
      destruct (generateNextPhase issues _ a4) as [[[np|]|e0] a5]; [| |discriminate].
      * unfold getState, setState, ret. intros Heq. inversion Heq. simpl.
        split; [by right; right|]. split; [by eexists|done].
      * unfold ret. intros Heq. inversion Heq. simpl.
        split; [by right; left|]. split; [discriminate|]. by intros [x Hx].
    + destruct e; simpl; [done|].
      unfold bind, broadcastError.
      destruct (broadcast_effect WS.ERROR None (Some "Error generating phase") a1)
        as [acc ->].
      simpl. split; [by left|]. split; [discriminate|]. by intros [x Hx].
  - unfold executePhaseImplementation, tryCatch.
    match goal with |- context [match ?body a with _ => _ end] =>
      destruct (body a) as [[r|e] a1] eqn:Hbody end.
    + simpl. revert Hbody. unfold bind.
      destruct (resolvePhase phaseConcept a) as [[[ph|]|e0] a2]; [| |discriminate].
      * destruct (collectIssues cache a2) as [[issues|e0] a3]; [|discriminate].
        destruct (implementPhase ph issues userContext a3) as [[u|e0] a4];
          [|discriminate].
        rewrite afterImplementation_spec. intros Heq. inversion Heq. simpl.
        destruct ((lastPhase ph || _) && _); [by right; left | by right; right].
      * unfold ret. intros Heq. inversion Heq. simpl. by right; left.
    + destruct e; simpl; [done|]. by left.
Qed.

(** X6.  The [finally] block of a run either throws, when the registry
    update throws, and then leaves the state, the registry, the sent
    messages and the generation promise as they were (a running
    generation stays marked as running), or it clears the generation
    promise, sets the status of the registry row (if any) to
    ["completed"] and ends with the [GENERATION_COMPLETE] broadcast.  The
    abort controller, which the block clears first, is not part of
    [Agent.t]. *)
Theorem X6_launchEpilogue (a : Agent.t) :
  match launchEpilogue a with
  | (inl _, a') =>
      isCodeGenerating a' = false
      ∧ registry a'
        = (fun row => {| Registry.title := Registry.title row;
                         Registry.status := "completed" |}) <$> registry a
      ∧ last (outbox a')
        = Some (mkBroadcast WS.GENERATION_COMPLETE
                  (Some "Code generation and review process completed.") None)
      ∧ launched a' = launched a
  | (inr e, a') => e = OtherError ∧ a' = a
  end.
Proof.
  unfold launchEpilogue, bind, getAgent.
  destruct (appServiceThrows (Registry.SetStatus "completed")); [done|].
  unfold putAgent.
  match goal with |- context [broadcast ?ty ?m ?p ?x] =>
    destruct (broadcast_effect ty m p x) as [acc ->] end.
  simpl. rewrite last_snoc. repeat split.
  by destruct (registry a).
Qed.

End MachineSteps.

(** ** The agent: deep-debug sessions *)

Section DeepDebugSessions.
Import State Agent DeepDebugTool.
Context `{Collaborators}.


(** X8.  The [deep_debug] tool serves one call per turn: whatever the
    first call of a tool did, a further call on the same tool is answered
    with [CALL_LIMIT_EXCEEDED] and changes neither the tool nor the agent.
    A first call made while code generation or another debug session is
    running starts no session: it leaves the agent unchanged and returns an
    error. *)
Theorem X8_deep_debug_once_per_turn
    (issue1 issue2 : string) (paths1 paths2 : list string)
    (a later : Agent.t) :
  let first := implementation issue1 paths1 createDeepDebuggerTool a in
  implementation issue2 paths2 first.1.2 later
  = (inl (Error CALL_LIMIT_EXCEEDED), first.1.2, later)
  ∧ (isCodeGenerating a || isDeepDebugging a = true →
     first.2 = a
     ∧ first.1.1
       = inl (Error (if isCodeGenerating a then GENERATION_IN_PROGRESS
                     else DEBUG_IN_PROGRESS))).
Proof.
  intros first. subst first. unfold implementation. simpl.
  destruct (isCodeGenerating a); simpl; [done|].
  destruct (isDeepDebugging a); simpl; [done|].
  destruct (executeDeepDebug issue1 paths1 a) as [[[out|e]|e] a']; done.
Qed.

End DeepDebugSessions.

(** ** The deep debugger: the window of the repetition guard *)

Section RepetitionWindow.
Import DeepCodeDebugger.

(** X9.  After [detectRepetition] at time [now], the calls remembered are
    all younger than ten minutes and end with the present call, and the
    warning counter and the conversation are untouched.  Calls that are
    ten minutes old or older are forgotten: when every remembered call is
    that old, the guard does not fire and only the present call is
    remembered. *)
Theorem X9_detectRepetition_window (name argsStr : string) (now : Z)
    (d : DeepCodeDebugger.t) :
  let out := detectRepetition name argsStr now d in
  Forall (fun call => now - timestamp call < 600000) (recentCalls (loopDetection out.2))
  ∧ last (recentCalls (loopDetection out.2)) = Some (mkCall name argsStr now)
  ∧ (length (recentCalls (loopDetection out.2))
     ≤ S (length (recentCalls (loopDetection d))))%nat
  ∧ repetitionWarnings (loopDetection out.2) = repetitionWarnings (loopDetection d)
  ∧ history out.2 = history d
  ∧ (Forall (fun call => 600000 ≤ now - timestamp call) (recentCalls (loopDetection d)) →
     out.1 = false ∧ recentCalls (loopDetection out.2) = [mkCall name argsStr now]).
Proof.
  intros out. subst out. unfold detectRepetition. simpl.
  set (recent := List.filter _ (recentCalls (loopDetection d))).
  split; [|split; [|split; [|split; [|split]]]]; try done.
  - apply Forall_app. split.
    + apply Forall_forall. intros call Hin.
      apply list_elem_of_In, List.filter_In in Hin as [_ Hyoung].
      by apply Z.ltb_lt in Hyoung.
    + constructor; [|constructor]. simpl. lia.
  - by rewrite last_snoc.
  - rewrite length_app. simpl.
    pose proof (sublist_length _ _ (filter_sublist
      (fun call => now - timestamp call <? 600000) (recentCalls (loopDetection d)))).
    subst recent. lia.
  - intros Hold.
    assert (Hnone : recent = []).
    { subst recent. induction Hold as [|call calls Hcall _ IH]; [done|].
      simpl. destruct (now - timestamp call <? 600000) eqn:Hy; [|exact IH].
      apply Z.ltb_lt in Hy. lia. }
    by rewrite Hnone.
Qed.

Lemma wrapped_step {World Result : Type} (name : string)
    (tool : string → World → Result * World) (argsStr : string) (now : Z)
    (d : DeepCodeDebugger.t) (w : World) (k : nat) :
  (length (recentCalls (loopDetection d)) ≤ k)%nat →
  (repetitionWarnings (loopDetection d) ≤ k - 2)%nat →
  let out := wrappedImplementation name tool argsStr now d w in
  (length (recentCalls (loopDetection out.1.2)) ≤ S k)%nat
  ∧ (repetitionWarnings (loopDetection out.1.2) ≤ S k - 2)%nat
  ∧ out.2 = (tool argsStr w).2.
Proof.
  intros Hlen Hwarn out. subst out. unfold wrappedImplementation.
  destruct (detectRepetition name argsStr now d) as [fired d1] eqn:Hdetect.
  unfold detectRepetition in Hdetect. injection Hdetect as Hfired Hd1.
  set (recent := List.filter (fun call => now - timestamp call <? 600000)
                             (recentCalls (loopDetection d))) in *.
  assert (Hrecent : (length recent ≤ length (recentCalls (loopDetection d)))%nat).
  { apply sublist_length, filter_sublist. }
  destruct (tool argsStr w) as [r w'] eqn:Htool. simpl.
  destruct fired; subst d1; simpl; rewrite length_app; simpl.
  - pose proof (sublist_length _ _ (filter_sublist
      (fun call => String.eqb (toolName call) name && String.eqb (args call) argsStr)
      recent)) as Hmatch.
    destruct (length (List.filter _ recent)) as [|[|m]]; try discriminate Hfired.
    repeat split; lia.
  - repeat split; lia.
Qed.

(** X10.  Through any sequence of wrapped tool calls on a new debugger
    the guard cannot fire before the third call, so a run of [n] calls
    injects at most [n - 2] warnings; and the tools act on the world exactly
    as if they had been called without the wrapper. *)
Theorem X10_warnings_bounded {World Result : Type}
    (tools : string → string → World → Result * World)
    (calls : list (string * string * Z)) (w : World) :
  let step (acc : DeepCodeDebugger.t * World) (call : string * string * Z) :=
    let out := wrappedImplementation call.1.1 (tools call.1.1) call.1.2 call.2
                 acc.1 acc.2 in
    (out.1.2, out.2) in
  let final := foldl step (create, w) calls in
  (repetitionWarnings (loopDetection final.1) ≤ length calls - 2)%nat
  ∧ final.2 = foldl (fun w' call => (tools call.1.1 call.1.2 w').2) w calls.
Proof.
  intros step final. subst final.
  assert (Hgen : ∀ cs d w0 k,
             (length (recentCalls (loopDetection d)) ≤ k)%nat →
             (repetitionWarnings (loopDetection d) ≤ k - 2)%nat →
             (repetitionWarnings (loopDetection (foldl step (d, w0) cs).1)
              ≤ k + length cs - 2)%nat
             ∧ (foldl step (d, w0) cs).2
               = foldl (fun w' call => (tools call.1.1 call.1.2 w').2) w0 cs).
  { induction cs as [|c cs IH]; intros d w0 k Hlen Hwarn; simpl.
    - split; [lia|done].
    - destruct (wrapped_step c.1.1 (tools c.1.1) c.1.2 c.2 d w0 k Hlen Hwarn)
        as (Hlen' & Hwarn' & Hworld).
      subst step. simpl. rewrite Hworld.
      destruct (IH (wrappedImplementation c.1.1 (tools c.1.1) c.1.2 c.2 d w0).1.2
                   (tools c.1.1 c.1.2 w0).2 (S k) Hlen' Hwarn') as [Hw Hf].
      split; [|exact Hf].
      replace (k + S (length cs))%nat with (S k + length cs)%nat by lia.
      exact Hw. }
  destruct (Hgen calls create w 0%nat) as [Hw Hf]; simpl; [lia|lia|].
  split; [exact Hw|exact Hf].
Qed.

End RepetitionWindow.

(** ** FileManager: reading back, deleting, syncing *)

Section FileManagerMore.
Import State FileManager.
Context `{DiffLib}.

Lemma saveLoop_elsewhere env st (todo : list FileOutputType) :
  ∀ m fss i p,
    p ∉ filePath <$> todo →
    (foldl (saveOne env st) (m, fss, i) todo).1.1 !! p = m !! p.
Proof.
  induction todo as [|f todo IH]; intros m fss i p Hp; simpl; [done|].
  rewrite fmap_cons in Hp. apply not_elem_of_cons in Hp as [Hne Hp].
  rewrite IH by done. by rewrite lookup_insert_ne.
Qed.

Lemma saveLoop_last env st (pre post : list FileOutputType) (f : FileOutputType) :
  filePath f ∉ filePath <$> post →
  ∀ m fss i,
    ∃ fs : FileState,
      (foldl (saveOne env st) (m, fss, i) (pre ++ f :: post)).1.1 !! filePath f = Some fs
      ∧ file fs = f.
Proof.
  intros Hpost m fss i. rewrite foldl_app. simpl.
  destruct (foldl (saveOne env st) (m, fss, i) pre) as [[m1 fss1] i1]. simpl.
  rewrite saveLoop_elsewhere by done.
  rewrite lookup_insert_eq. by eexists.
Qed.

(** X11.  What [saveGeneratedFiles] has saved is what [getFile] reads
    back: for the last entry of the list with a given path, [getFile]
    returns exactly that file afterwards, whatever the template holds at
    this path and whether or not the git call succeeded. *)
Theorem X11_save_then_getFile env env' st r (pre post : list FileOutputType)
    (f : FileOutputType) msg :
  filePath f ∉ filePath <$> post →
  let s := saveGeneratedFiles env st r (pre ++ f :: post) msg in
  getFile env' (state s) (filePath f) = Some f
  ∧ fileExists (state s) (filePath f) = true.
Proof.
  intros Hpost s.
  destruct (saveGeneratedFiles_projections env st r (pre ++ f :: post) msg) as [Hm _].
  unfold generatedFilesMap_of in Hm. fold s in Hm.
  destruct (saveLoop_last env st pre post f Hpost
              (CodeGenState.generatedFilesMap st) [] 0%nat) as (fs & Hfs & Hfile).
  unfold getFile, fileExists, getGeneratedFile. rewrite Hm. unfold saveLoop.
  rewrite Hfs. by rewrite Hfile.
Qed.

(** X12.  [saveGeneratedFiles] only adds to the map: afterwards the map
    has an entry for every path of the list, each stored under its own
    path, and every other path holds what it held before.  With an empty
    list nothing changes and git is not called. *)
Theorem X12_save_extends_map env st r (F : list FileOutputType) msg :
  let s := saveGeneratedFiles env st r F msg in
  (∀ p, p ∉ filePath <$> F →
        CodeGenState.generatedFilesMap (state s) !! p
        = CodeGenState.generatedFilesMap st !! p)
  ∧ (∀ p, p ∈ filePath <$> F →
          ∃ fs : FileState,
            CodeGenState.generatedFilesMap (state s) !! p = Some fs
            ∧ filePath (file fs) = p ∧ file fs ∈ F)
  ∧ (F = [] → state s = st ∧ result s = [] ∧ gitCalls s = [] ∧ repo s = r).
Proof.
  intros s.
  destruct (saveGeneratedFiles_projections env st r F msg) as [Hm _].
  unfold generatedFilesMap_of in Hm. fold s in Hm.
  split; [|split].
  - intros p Hp. rewrite Hm. unfold saveLoop. by apply saveLoop_elsewhere.
  - intros p Hp. apply list_elem_of_fmap in Hp as (f & -> & Hf).
    pose proof (saveLoop_covers env st F [] (CodeGenState.generatedFilesMap st) []
                  0%nat) as Hcov.
    simpl in Hcov.
    destruct (Hcov ltac:(by intros g Hg; apply elem_of_nil in Hg) f Hf)
      as (fs & Hl & Hin & Hp).
    exists fs. rewrite Hm. done.
  - intros ->. subst s. unfold saveGeneratedFiles. simpl.
    repeat split. by destruct st.
Qed.





End FileManagerMore.

Lemma X11_save_then_getFile_witness :
  let f := Fixtures.appTsx "export default App" in
  let s := FileManager.saveGeneratedFiles (H := FileManager.headerDiff)
             Fixtures.failingGitEnv Fixtures.state0 Git.empty
             ([Fixtures.appTsx "draft"] ++ f :: [Fixtures.mainTsx "render()"])
             (Some "feat: Setup") in
  FileManager.getFile Fixtures.fileManagerEnv (FileManager.state s) "src/App.tsx"
  = Some f
  ∧ FileManager.fileExists (FileManager.state s) "src/App.tsx" = true.
Proof.
  intros f s.
  apply (X11_save_then_getFile (H := FileManager.headerDiff)
           Fixtures.failingGitEnv Fixtures.fileManagerEnv Fixtures.state0 Git.empty
           [Fixtures.appTsx "draft"] [Fixtures.mainTsx "render()"] f
           (Some "feat: Setup")).
  simpl. rewrite list_elem_of_singleton. discriminate.
Defined.

(** ** State migration: what the cleanup keeps *)

Section MigrationMore.
Import StateMigration.
Context `{NameGenerator}.


Lemma dedup_keeps_first clock (msgs : list Message) :
  Forall hasId msgs →
  ∀ k seen i m0,
    i ∉ seen →
    List.find (fun m => String.eqb (conversationId m) i) msgs = Some m0 →
    m0 ∈ dedup clock k seen msgs.
Proof.
  induction 1 as [|m msgs Hm _ IH]; intros k seen i m0 Hi Hfind; simpl in *;
    [discriminate|].
  rewrite (messageKey_id _ m Hm).
  destruct (String.eqb (conversationId m) i) eqn:Heq.
  - apply String.eqb_eq in Heq. inversion Hfind; subst.
    destruct (decide (conversationId m0 ∈ seen)); [done|by left].
  - apply String.eqb_neq in Heq.
    destruct (decide (conversationId m ∈ seen)).
    + by eapply IH.
    + right. eapply IH; [|exact Hfind].
      intros Hin. apply elem_of_union in Hin as [Hin|Hin]; [|done].
      apply elem_of_singleton in Hin. congruence.
Qed.

(** X16.  When every stored message carries a [conversationId], the
    cleaned conversation holds no identifier twice, and of the messages
    that share an identifier it is the first one that is kept: it is in the
    result unless it is an internal memo of a conversation of more than 25
    messages. *)
Theorem X16_cleanConversation_unique (clock : nat → Z) (msgs : list Message) :
  Forall hasId msgs →
  let r := cleanConversation clock msgs in
  NoDup (conversationId <$> r)
  ∧ (∀ i m0,
        List.find (fun m => String.eqb (conversationId m) i) msgs = Some m0 →
        m0 ∈ r ∨ (isInternalMemo m0 = true ∧ (MIN_MESSAGES_FOR_CLEANUP < length msgs)%nat)).
Proof.
  intros Hids r.
  split; [apply (clean_nodup _ (cleanConversation_is_clean clock msgs Hids))|].
  intros i m0 Hfind. subst r. unfold cleanConversation.
  set (u := sortByTimestamp (dedup clock 0 ∅ msgs)).
  assert (Hu : m0 ∈ u).
  { subst u. rewrite sortByTimestamp_perm.
    eapply (dedup_keeps_first clock msgs Hids 0%nat ∅ i m0); [|exact Hfind].
    apply not_elem_of_empty. }
  assert (Hlen : (length u ≤ length msgs)%nat).
  { subst u. rewrite sortByTimestamp_perm. apply sublist_length, dedup_sublist. }
  destruct (MIN_MESSAGES_FOR_CLEANUP <? length u)%nat eqn:Hlong; [|by left].
  apply Nat.ltb_lt in Hlong.
  destruct (isInternalMemo m0) eqn:Hmemo.
  - right. split; [done|lia].
  - left. apply list_elem_of_In, List.filter_In. split; [by apply list_elem_of_In|].
    by rewrite Hmemo.
Qed.

(** X17.  Loading a state through the migration keeps the query, the
    blueprint's name, every key the migration does not know and a
    non-empty [projectName]; it keeps the paths of the file map, leaves
    files of the current format alone and carries a non-empty path or
    contents of a file of the old format over to the new key.  Whenever a
    migration takes place the accumulated project updates are reset to the
    empty list. *)
Theorem X17_migration_preserves (env : Env) (s : StoredState) :
  let s' := migrate env s in
  query s' = query s
  ∧ blueprintProjectName s' = blueprintProjectName s
  ∧ otherKeys s' = otherKeys s
  ∧ (truthy (projectName s) = true → projectName s' = projectName s)
  ∧ (∀ k, generatedFilesMap s' !! k = migrateFile <$> generatedFilesMap s !! k)
  ∧ (∀ f, hasOldFormat f = false → migrateFile f = f)
  ∧ (∀ f c, truthy c = true →
        (file_contents f = Some c ∧ fileContents f = None → fileContents (migrateFile f) = Some c)
        ∧ (file_path f = Some c ∧ filePath f = None → filePath (migrateFile f) = Some c)
        ∧ (fileContents f = Some c → fileContents (migrateFile f) = Some c)
        ∧ (filePath f = Some c → filePath (migrateFile f) = Some c))
  ∧ (s' = s ∨ projectUpdatesAccumulator s' = Some []).
Proof.
  intros s'. subst s'. unfold migrate, migrateIfNeeded.
  set (filesOk := bool_decide (map_Forall (fun _ f => hasOldFormat f = false)
                                 (generatedFilesMap s))).
  assert (Hfiles : filesOk = true → ∀ k,
             generatedFilesMap s !! k = migrateFile <$> generatedFilesMap s !! k).
  { intros Hok k. apply bool_decide_eq_true_1 in Hok.
    destruct (generatedFilesMap s !! k) as [f|] eqn:Hk; [|done]. simpl.
    specialize (Hok k f Hk). simpl in Hok. unfold migrateFile. by rewrite Hok. }
  assert (Hmig : ∀ f c, truthy c = true →
        (file_contents f = Some c ∧ fileContents f = None → fileContents (migrateFile f) = Some c)
        ∧ (file_path f = Some c ∧ filePath f = None → filePath (migrateFile f) = Some c)
        ∧ (fileContents f = Some c → fileContents (migrateFile f) = Some c)
        ∧ (filePath f = Some c → filePath (migrateFile f) = Some c)).
  { intros f c Hc. unfold migrateFile, hasOldFormat.
    repeat split.
    - intros [Hold Hnew]. rewrite Hold, Hnew. simpl. by rewrite orb_true_r.
    - intros [Hold Hnew]. rewrite Hold, Hnew. simpl. done.
    - intros Hnew. destruct (_ || _); [|done]. simpl. rewrite Hnew. simpl. by rewrite Hc.
    - intros Hnew. destruct (_ || _); [|done]. simpl. rewrite Hnew. simpl. by rewrite Hc. }
  assert (Hnew : ∀ f, hasOldFormat f = false → migrateFile f = f).
  { intros f Hf. unfold migrateFile. by rewrite Hf. }
  destruct (negb filesOk) eqn:Hneg; simpl.
  - refine (conj _ (conj _ (conj _ (conj _ (conj _ (conj Hnew (conj Hmig _)))))));
      try done.
    + intros Hname. by rewrite Hname.
    + intros k. by rewrite lookup_fmap.
    + by right.
  - apply negb_false_iff in Hneg.
    destruct (_ || _) eqn:Hneeds; simpl.
    + refine (conj _ (conj _ (conj _ (conj _ (conj _ (conj Hnew (conj Hmig _)))))));
        try done.
      * intros Hname. by rewrite Hname.
      * intros k. by rewrite lookup_fmap.
      * by right.
    + refine (conj _ (conj _ (conj _ (conj _ (conj _ (conj Hnew (conj Hmig _)))))));
        try done.
      * by apply Hfiles.
      * by left.
Qed.

End MigrationMore.

Lemma X16_cleanConversation_unique_witness :
  let msgs := StateMigration.conversationMessages Fixtures.legacyState in
  let r := StateMigration.cleanConversation
             (StateMigration.clock Fixtures.tickingRun) msgs in
  NoDup (StateMigration.conversationId <$> r)
  ∧ (∀ i m0,
        List.find (fun m => String.eqb (StateMigration.conversationId m) i) msgs
        = Some m0 →
        m0 ∈ r ∨ (StateMigration.isInternalMemo m0 = true
                  ∧ (StateMigration.MIN_MESSAGES_FOR_CLEANUP < length msgs)%nat)).
Proof.
  apply (X16_cleanConversation_unique (StateMigration.clock Fixtures.tickingRun)
           (StateMigration.conversationMessages Fixtures.legacyState)).
  repeat constructor.
Defined.

(** ** Conversation histories *)

Section ConversationHistories.
Import State Conversation.

Lemma dedupFrom_fresh (msgs : list ConversationMessage) :
  ∀ seen,
    NoDup (conversationId <$> dedupFrom seen msgs)
    ∧ ∀ m, m ∈ dedupFrom seen msgs → conversationId m ∉ seen.
Proof.
  induction msgs as [|m msgs IH]; intros seen; simpl.
  - split; [constructor|]. intros m Hin. by apply elem_of_nil in Hin.
  - destruct (decide (conversationId m ∈ seen)) as [Hseen|Hnew]; [apply IH|].
    destruct (IH ({[conversationId m]} ∪ seen)) as [Hnd Hout].
    split.
    + simpl. constructor; [|done].
      intros Hin. apply list_elem_of_fmap in Hin as (x & Hx & Hxin).
      apply (Hout x Hxin). rewrite <- Hx.
      apply elem_of_union. left. by apply elem_of_singleton.
    + intros x Hx. apply elem_of_cons in Hx as [->|Hx]; [done|].
      specialize (Hout x Hx). intros Hin. apply Hout.
      apply elem_of_union. by right.
Qed.

Lemma dedupFrom_find (msgs : list ConversationMessage) :
  ∀ seen i,
    i ∉ seen →
    messageWithId i (dedupFrom seen msgs) = messageWithId i msgs.
Proof.
  unfold messageWithId.
  induction msgs as [|m msgs IH]; intros seen i Hi; simpl; [done|].
  destruct (decide (conversationId m ∈ seen)) as [Hseen|Hnew].
  - destruct (String.eqb (conversationId m) i) eqn:Heq.
    + apply String.eqb_eq in Heq. congruence.
    + by apply IH.
  - simpl. destruct (String.eqb (conversationId m) i) eqn:Heq; [done|].
    apply IH. apply String.eqb_neq in Heq.
    intros Hin. apply elem_of_union in Hin as [Hin|Hin]; [|done].
    apply elem_of_singleton in Hin. congruence.
Qed.


(** X18.  The histories that [getConversationState] returns hold no
    [conversationId] twice, and an identifier resolves to the message it
    resolved to in the stored history (the first one that carries it); the
    stored history is the row of the table or, when the row is absent,
    unreadable or empty, the conversation kept in the agent state. *)
Theorem X18_getConversationState_unique (sessionId : string)
    (current : list ConversationMessage) (t : Tables) (i : string) :
  let c := getConversationState sessionId current t in
  let source row :=
    if (length (parseRow row) =? 0)%nat then current else parseRow row in
  NoDup (conversationId <$> runningHistory c)
  ∧ NoDup (conversationId <$> fullHistory c)
  ∧ messageWithId i (runningHistory c)
    = messageWithId i (source (compact_conversations t !! sessionId))
  ∧ messageWithId i (fullHistory c)
    = messageWithId i (source (full_conversations t !! sessionId)).
Proof.
  intros c source. subst c source. unfold getConversationState, deduplicateMessages.
  simpl. repeat split.
  - apply dedupFrom_fresh.
  - apply dedupFrom_fresh.
  - apply dedupFrom_find, not_elem_of_empty.
  - apply dedupFrom_find, not_elem_of_empty.
Qed.






End ConversationHistories.

(** ** The cached GitHub token *)

Section TokenCache.
Import GitHubToken.

(** X20.  A token cached at time [t0] for [ttl] milliseconds is returned
    by a read at time [t] exactly when [t < t0 + ttl]; a read at or after
    the expiry returns nothing and empties the cache, so that every later
    read returns nothing as well, whatever the clock then shows. *)
Theorem X20_token_expiry (tok user : string) (ttl t0 t t' : Z) :
  let cache := setGitHubToken tok user ttl t0 in
  let read := getGitHubToken t cache in
  read.1 = (if t <? t0 + ttl then Some (tok, user) else None)
  ∧ read.2 = (if t <? t0 + ttl then cache else None)
  ∧ (getGitHubToken t' read.2).1
    = (if (t <? t0 + ttl) && (t' <? t0 + ttl) then Some (tok, user) else None)
  ∧ (getGitHubToken t' (clearGitHubToken cache)).1 = None.
Proof.
  intros cache read. subst read cache. unfold setGitHubToken, getGitHubToken. simpl.
  destruct (t0 + ttl <=? t) eqn:Ht; destruct (t <? t0 + ttl) eqn:Ht2;
    try (apply Z.leb_le in Ht; apply Z.ltb_lt in Ht2; lia);
    try (apply Z.leb_gt in Ht; apply Z.ltb_ge in Ht2; lia); simpl;
    [done|].
  destruct (t0 + ttl <=? t') eqn:Ht'; destruct (t' <? t0 + ttl) eqn:Ht2';
    try (apply Z.leb_le in Ht'; apply Z.ltb_lt in Ht2'; lia);
    try (apply Z.leb_gt in Ht'; apply Z.ltb_ge in Ht2'; lia); done.
Qed.

End TokenCache.

(** ** Abort controllers *)

Section Aborting.
Import AbortControllers.

Lemma newController_fresh (a : AbortControllers.t) :
  let n := newController a in
  aborted n.2 n.1 = false
  ∧ currentAbortController n.2 = Some n.1
  ∧ (n.1 < length (heap n.2))%nat
  ∧ (∀ c, (c < length (heap a))%nat → aborted n.2 c = aborted a c).
Proof.
  unfold newController, aborted. simpl.
  rewrite lookup_app_r, Nat.sub_diag by lia. rewrite length_app. simpl.
  repeat split; try lia.
  intros c Hc. by rewrite lookup_app_l.
Qed.

(** X21.  [getOrCreateAbortController] hands out a controller that is
    not aborted and keeps it as the current one: a nested call gets the
    same controller and changes nothing, and the controllers that existed
    before keep their state.  [cancelCurrentInference] aborts exactly this
    controller, for everyone who holds it, and the next
    [getOrCreateAbortController] hands out another controller, which is
    not aborted, while the cancelled one stays aborted. *)
Theorem X21_abort_controllers (a : AbortControllers.t) :
  wellFormed a →
  let got := getOrCreateAbortController a in
  let cancelled := cancelCurrentInference got.2 in
  let next := getOrCreateAbortController cancelled.2 in
  aborted got.2 got.1 = false
  ∧ currentAbortController got.2 = Some got.1
  ∧ getOrCreateAbortController got.2 = got
  ∧ (∀ c, (c < length (heap a))%nat → aborted got.2 c = aborted a c)
  ∧ cancelled.1 = true
  ∧ aborted cancelled.2 got.1 = true
  ∧ (∀ c, c ≠ got.1 → aborted cancelled.2 c = aborted got.2 c)
  ∧ next.1 ≠ got.1
  ∧ aborted next.2 next.1 = false
  ∧ aborted next.2 got.1 = true
  ∧ (cancelCurrentInference (clearAbortController got.2)).1 = false.
Proof.
  intros Hwf got cancelled next.
  assert (Hgot : aborted got.2 got.1 = false
                 ∧ currentAbortController got.2 = Some got.1
                 ∧ (got.1 < length (heap got.2))%nat
                 ∧ (∀ c, (c < length (heap a))%nat → aborted got.2 c = aborted a c)).
  { subst got. unfold getOrCreateAbortController, wellFormed in *.
    destruct (currentAbortController a) as [c|] eqn:Hcur.
    - destruct (aborted a c) eqn:Hab; simpl; [apply newController_fresh|].
      rewrite Hcur. repeat split; try done.
    - apply newController_fresh. }
  destruct Hgot as (Hfresh & Hcur & Hlt & Hold).
  assert (Hcancel : cancelled = (true, {| heap := <[got.1 := true]> (heap got.2);
                                          currentAbortController := None |})).
  { subst cancelled. unfold cancelCurrentInference. by rewrite Hcur. }
  assert (Hnext : next = (length (heap got.2),
                          {| heap := <[got.1 := true]> (heap got.2) ++ [false];
                             currentAbortController := Some (length (heap got.2)) |})).
  { subst next. rewrite Hcancel. unfold getOrCreateAbortController, newController.
    simpl. by rewrite length_insert. }
  split; [done|]. split; [done|]. split.
  { unfold getOrCreateAbortController. rewrite Hcur, Hfresh. simpl. by destruct got. }
  split; [done|]. rewrite Hcancel, Hnext. simpl.
  split; [done|]. split.
  { unfold aborted. simpl. by rewrite list_lookup_insert_eq. }
  split.
  { intros c Hc. unfold aborted. simpl. by rewrite list_lookup_insert_ne. }
  split; [lia|]. split.
  { unfold aborted. simpl.
    rewrite lookup_app_r; rewrite length_insert; [|lia].
    by rewrite Nat.sub_diag. }
  split.
  { unfold aborted. simpl. rewrite lookup_app_l by (rewrite length_insert; lia).
    by rewrite list_lookup_insert_eq. }
  done.
Qed.

End Aborting.

Lemma X21_abort_controllers_witness :
  AbortControllers.wellFormed AbortControllers.initial
  ∧ let got := AbortControllers.getOrCreateAbortController AbortControllers.initial in
    AbortControllers.aborted got.2 got.1 = false
    ∧ AbortControllers.aborted
        (AbortControllers.cancelCurrentInference got.2).2 got.1 = true.
Proof.
  assert (Hwf : AbortControllers.wellFormed AbortControllers.initial) by exact I.
  split; [exact Hwf|].
  pose proof (X21_abort_controllers AbortControllers.initial Hwf) as Hall.
  cbv zeta in Hall. destruct Hall as (Hfresh & _ & _ & _ & _ & Hcancelled & _).
  split; [exact Hfresh|exact Hcancelled].
Defined.

(** ** The [get_logs] tool *)

Section GetLogs.
Import GetLogsTool.

Lemma splitLines_not_empty (s : string) : splitLines s ≠ [].
Proof.
  induction s as [|c s IH]; simpl; [done|].
  destruct (Ascii.eqb c newline); [done|].
  by destruct (splitLines s).
Qed.

Lemma joinLines_cons (line : string) (rest : list string) :
  rest ≠ [] → joinLines (line :: rest) = line +:+ String newline (joinLines rest).
Proof. by destruct rest. Qed.

Lemma join_split (s : string) : joinLines (splitLines s) = s.
Proof.
  induction s as [|c s IH]; [done|]. simpl.
  destruct (Ascii.eqb c newline) eqn:Hc.
  - apply Ascii.eqb_eq in Hc. subst c.
    rewrite joinLines_cons by apply splitLines_not_empty. simpl. by rewrite IH.
  - pose proof (splitLines_not_empty s) as Hne.
    destruct (splitLines s) as [|line [|l2 lines]]; [done| |].
    + simpl in *. by rewrite IH.
    + change (joinLines (String c line :: l2 :: lines))
        with (String c line +:+ String newline (joinLines (l2 :: lines))).
      change (joinLines (line :: l2 :: lines))
        with (line +:+ String newline (joinLines (l2 :: lines))) in IH.
      simpl. by rewrite <- IH.
Qed.

Lemma sliceFrom_last {A} (n : Z) (l : list A) :
  0 < n → sliceFrom (- n) l = drop (length l - Z.to_nat n) l.
Proof.
  intros Hn. unfold sliceFrom.
  assert (Hneg : (- n <? 0) = true) by (apply Z.ltb_lt; lia).
  rewrite Hneg. f_equal. lia.
Qed.

Lemma sliceFrom_front {A} (n : Z) (l : list A) :
  n ≤ 0 → sliceFrom (- n) l = drop (Z.to_nat (- n)) l.
Proof.
  intros Hn. unfold sliceFrom.
  assert (Hneg : (- n <? 0) = false) by (apply Z.ltb_ge; lia).
  rewrite Hneg.
  destruct (Z.le_gt_cases (- n) (Z.of_nat (length l))) as [Hle|Hgt].
  - by rewrite Z.min_l.
  - rewrite Z.min_r by lia. rewrite Nat2Z.id.
    rewrite !drop_ge; [done|lia|lia].
Qed.

(** X22.  With a positive [maxLines] (100 when none is given) the tool
    returns the logs unchanged when they have at most [maxLines] lines;
    otherwise it returns the notice followed by the last [maxLines] lines
    of the logs, in their order.  With [maxLines = -1] the logs are never
    cut.  Splitting into lines and joining them again gives the logs back. *)
Theorem X22_get_logs_truncation (getLogs : bool → Z → string + string)
    (args : option Args) (logs : string) :
  let maxLines := default 100 (args ≫= maxLines) in
  let lines := splitLines logs in
  getLogs (default false (args ≫= reset)) (default 30 (args ≫= durationSeconds))
  = inl logs →
  (0 < maxLines ∨ maxLines = -1) →
  implementation getLogs args
  = (if (maxLines =? -1) || (Z.of_nat (length lines) <=? maxLines)
     then Logs logs
     else Logs (joinLines
                  (truncationNotice maxLines (length lines)
                     :: drop (length lines - Z.to_nat maxLines) lines)))
  ∧ joinLines lines = logs
  ∧ (0 < maxLines → (Z.of_nat (length lines) <=? maxLines) = false →
     Z.of_nat (length (drop (length lines - Z.to_nat maxLines) lines)) = maxLines).
Proof.
  intros maxL lines Hlogs Hmax. unfold implementation. rewrite Hlogs.
  fold maxL. fold lines.
  split; [|split; [apply join_split|]].
  - destruct Hmax as [Hpos| ->]; [|done].
    assert (Hne : (maxL =? -1) = false) by (apply Z.eqb_neq; lia).
    rewrite Hne. simpl.
    destruct (truthy logs) eqn:Hlog.
    + destruct (Z.of_nat (length lines) <=? maxL) eqn:Hle.
      * apply Z.leb_le in Hle.
        assert (Hgt : (Z.of_nat (length lines) >? maxL) = false).
        { rewrite Z.gtb_ltb. apply Z.ltb_ge. lia. }
        by rewrite Hgt.
      * apply Z.leb_gt in Hle.
        assert (Hgt : (Z.of_nat (length lines) >? maxL) = true).
        { rewrite Z.gtb_ltb. apply Z.ltb_lt. lia. }
        rewrite Hgt. by rewrite sliceFrom_last.
    + unfold truthy in Hlog. apply negb_false_iff, String.eqb_eq in Hlog.
      subst lines. rewrite Hlog.
      destruct (Z.of_nat (length (splitLines "")) <=? maxL) eqn:Hle; [done|].
      apply Z.leb_gt in Hle.
      change (Z.of_nat (length (splitLines ""))) with 1 in Hle. clearbody maxL. lia.
  - intros Hpos Hle. apply Z.leb_gt in Hle. rewrite length_drop.
    clearbody maxL. lia.
Qed.

(** X23.  With [maxLines = 0] nothing is cut although the notice
    announces the last 0 lines: every line of non-empty logs is returned
    after the notice.  With a negative [maxLines] other than -1 the first
    [-maxLines] lines are dropped instead of the last being kept. *)
Theorem X23_get_logs_nonpositive (getLogs : bool → Z → string + string)
    (args : Args) (logs : string) (m : Z) :
  maxLines args = Some m →
  m ≤ 0 → m ≠ -1 → truthy logs = true →
  getLogs (default false (reset args)) (default 30 (durationSeconds args)) = inl logs →
  implementation getLogs (Some args)
  = Logs (joinLines
            (truncationNotice m (length (splitLines logs))
               :: drop (Z.to_nat (- m)) (splitLines logs)))
  ∧ (m = 0 → drop (Z.to_nat (- m)) (splitLines logs) = splitLines logs).
Proof.
  intros Hm Hle Hne Hlog Hlogs. unfold implementation. simpl.
  rewrite Hlogs, Hm, Hlog. simpl.
  assert (Hneq : (m =? -1) = false) by (by apply Z.eqb_neq).
  rewrite Hneq. simpl.
  assert (Hgt : (Z.of_nat (length (splitLines logs)) >? m) = true).
  { rewrite Z.gtb_ltb. apply Z.ltb_lt.
    pose proof (splitLines_not_empty logs). destruct (splitLines logs); [done|].
    simpl. lia. }
  rewrite Hgt. rewrite sliceFrom_front by done.
  split; [done|]. by intros ->.
Qed.

End GetLogs.

Lemma X22_get_logs_truncation_witness :
  let getLogs : bool → Z → string + string :=
    fun _ _ => inl (GetLogsTool.joinLines ["one"; "two"; "three"]) in
  let args := Some (GetLogsTool.mkArgs None None (Some 2)) in
  GetLogsTool.implementation getLogs args
  = GetLogsTool.Logs
      (GetLogsTool.joinLines
         [GetLogsTool.truncationNotice 2 3; "two"; "three"]).
Proof.
  intros getLogs args.
  destruct (X22_get_logs_truncation getLogs args
              (GetLogsTool.joinLines ["one"; "two"; "three"])) as [Hout _].
  - reflexivity.
  - left. reflexivity.
  - exact Hout.
Defined.

Lemma X23_get_logs_nonpositive_witness :
  let getLogs : bool → Z → string + string :=
    fun _ _ => inl (GetLogsTool.joinLines ["one"; "two"; "three"]) in
  GetLogsTool.implementation getLogs (Some (GetLogsTool.mkArgs None None (Some 0)))
  = GetLogsTool.Logs
      (GetLogsTool.joinLines
         [GetLogsTool.truncationNotice 0 3; "one"; "two"; "three"]).
Proof.
  intros getLogs.
  destruct (X23_get_logs_nonpositive getLogs (GetLogsTool.mkArgs None None (Some 0))
              (GetLogsTool.joinLines ["one"; "two"; "three"]) 0) as [Hout _].
  - reflexivity.
  - lia.
  - lia.
  - reflexivity.
  - reflexivity.
  - exact Hout.
Defined.

(** ** The [git] tool *)

Section GitToolCalls.
Import GitTool.
#[local] Set Warnings "-clear-no-such-hyp".

Lemma given_Some (arg : option string) (v : string) :
  given arg = Some v ↔ arg = Some v ∧ v ≠ "".
Proof.
  unfold given, truthy. destruct arg as [w|]; [|naive_solver].
  destruct (String.eqb w "") eqn:Hw; simpl.
  - apply String.eqb_eq in Hw. naive_solver.
  - apply String.eqb_neq in Hw. naive_solver.
Qed.

(** X24.  One call of the tool makes at most one call on the git
    instance, and only the one its command names: a commit only for
    [commit] with a non-empty message, a hard reset only for [reset] with
    a non-empty oid, a show only for [show] with a non-empty oid, a log
    only for [log] and never with limit 0.  A call that reports success
    has made its git call. *)
Theorem X24_git_tool_calls {git : GitInstance} (args : GitToolArgs) :
  let out := implementation args in
  (length out.2 ≤ 1)%nat
  ∧ (∀ m, OpCommit m ∈ out.2 →
       command args = "commit" ∧ message args = Some m ∧ m ≠ "")
  ∧ (∀ o, OpReset o ∈ out.2 →
       command args = "reset" ∧ oid args = Some o ∧ o ≠ "")
  ∧ (∀ o d, OpShow o d ∈ out.2 →
       command args = "show" ∧ oid args = Some o ∧ o ≠ "" ∧ d = includeDiff args)
  ∧ (∀ n, OpLog n ∈ out.2 →
       command args = "log" ∧ n ≠ 0 ∧ n = (if limit args is Some l then
                                             if l =? 0 then 10 else l else 10))
  ∧ (success out.1 = true → out.2 ≠ []).
Proof.
  unfold implementation.
  destruct (String.eqb (command args) "commit") eqn:Hcommit.
  { apply String.eqb_eq in Hcommit.
    destruct (given (message args)) as [m|] eqn:Hm.
    - apply given_Some in Hm as [Hm Hne].
      destruct (commit m); simpl;
        (repeat split; [lia|set_solver..]).
    - simpl. repeat split; (lia || set_solver). }
  apply String.eqb_neq in Hcommit.
  destruct (String.eqb (command args) "log") eqn:Hlog.
  { apply String.eqb_eq in Hlog.
    set (n := match limit args with Some l => if l =? 0 then 10 else l | None => 10 end).
    assert (Hn : n ≠ 0).
    { subst n. destruct (limit args) as [l|]; [|done].
      destruct (l =? 0) eqn:Hl; [done|]. by apply Z.eqb_neq in Hl. }
    destruct (log n); simpl; (repeat split; [lia|set_solver..]). }
  apply String.eqb_neq in Hlog.
  destruct (String.eqb (command args) "show") eqn:Hshow.
  { apply String.eqb_eq in Hshow.
    destruct (given (oid args)) as [o|] eqn:Ho.
    - apply given_Some in Ho as [Ho Hne].
      destruct (show o (includeDiff args)); simpl;
        (repeat split; [lia|set_solver..]).
    - simpl. repeat split; (lia || set_solver). }
  apply String.eqb_neq in Hshow.
  destruct (String.eqb (command args) "reset") eqn:Hreset.
  { apply String.eqb_eq in Hreset.
    destruct (given (oid args)) as [o|] eqn:Ho.
    - apply given_Some in Ho as [Ho Hne].
      destruct (reset o); simpl;
        (repeat split; [lia|set_solver..]).
    - simpl. repeat split; (lia || set_solver). }
  simpl. repeat split; (lia || set_solver).
Qed.

(** X25.  Excluding a command only shapes what the tool advertises: the
    advertised commands are the four commands without the excluded ones,
    and with [reset] excluded no warning is advertised, yet a call with
    the command [reset] and a non-empty oid still makes the hard reset. *)
Theorem X25_excluded_reset_still_runs {git : GitInstance} (excluded : list string)
    (args : GitToolArgs) (o : string) :
  "reset" ∈ excluded →
  command args = "reset" → oid args = Some o → o ≠ "" →
  let tool := createGitTool (Some excluded) in
  (∀ cmd, cmd ∈ allowedCommands tool ↔ cmd ∈ allCommands ∧ cmd ∉ excluded)
  ∧ hasReset tool = false
  ∧ (run tool args).2 = [OpReset o].
Proof.
  intros Hex Hcmd Hoid Hne tool.
  assert (Hmem : ∀ cmd, cmd ∈ allowedCommands tool ↔ cmd ∈ allCommands ∧ cmd ∉ excluded).
  { intros cmd. subst tool. cbn [createGitTool allowedCommands].
    rewrite list_elem_of_In, filter_In, <- !list_elem_of_In.
    rewrite negb_true_iff. split.
    - intros [Hall Hnot]. split; [done|]. intros Hin.
      assert (existsb (String.eqb cmd) excluded = true); [|congruence].
      apply existsb_exists. exists cmd. rewrite <- list_elem_of_In.
      split; [done|apply String.eqb_refl].
    - intros [Hall Hnot]. split; [done|].
      destruct (existsb (String.eqb cmd) excluded) eqn:Hex'; [|done].
      apply existsb_exists in Hex' as (x & Hx & Heq).
      apply String.eqb_eq in Heq. subst x.
      by apply list_elem_of_In in Hx. }
  split; [done|]. split.
  - destruct (hasReset tool) eqn:Hhas; [|done].
    unfold hasReset in Hhas. subst tool. cbn [createGitTool] in Hhas.
    apply existsb_exists in Hhas as (x & Hx & Heq).
    apply String.eqb_eq in Heq. subst x.
    apply list_elem_of_In, Hmem in Hx. naive_solver.
  - subst tool. cbn [createGitTool run]. unfold implementation.
    rewrite Hcmd, Hoid. simpl.
    assert (Ht : truthy o = true).
    { unfold truthy. apply negb_true_iff. by apply String.eqb_neq. }
    rewrite Ht. by destruct (reset o).
Qed.

End GitToolCalls.

Lemma X25_excluded_reset_still_runs_witness :
  let git := GitTool.mkGit (fun _ => inl None) (fun _ => inl [])
               (fun o _ => inl (GitTool.mkShow o "init" 0))
               (fun o => inl (GitTool.mkReset o 3)) in
  let tool := @GitTool.createGitTool git (Some ["reset"]) in
  GitTool.allowedCommands tool = ["commit"; "log"; "show"]
  ∧ GitTool.hasReset tool = false
  ∧ (GitTool.run tool (GitTool.mkArgs "reset" None None (Some "abc1234") None)).2
    = [GitTool.OpReset "abc1234"].
Proof.
  intros git tool.
  destruct (@X25_excluded_reset_still_runs git ["reset"]
              (GitTool.mkArgs "reset" None None (Some "abc1234") None) "abc1234")
    as (_ & Hhas & Hrun).
  - constructor.
  - reflexivity.
  - reflexivity.
  - discriminate.
  - split; [reflexivity|]. split; [exact Hhas|exact Hrun].
Defined.

(** ** Template files *)

Section TemplateFiles.
Import Template.

Lemma important_loop (td : TemplateDetails) (filterRedacted : bool)
    (entries : list (string * string)) (result : list TemplateFile) :
  foldl (fun result (entry : string * string) =>
           if isImportant td entry.1 then
             let contents := shownContents td filterRedacted entry.1 entry.2 in
             if truthy contents
             then result ++ [{| filePath := entry.1; fileContents := contents |}]
             else result
           else result) result entries
  = result ++ omap (contribution td filterRedacted) entries.
Proof.
  revert result. induction entries as [|entry entries IH]; intros result; simpl.
  - by rewrite app_nil_r.
  - rewrite IH. unfold contribution at 2.
    destruct (isImportant td entry.1); [|done]. simpl.
    destruct (truthy (shownContents td filterRedacted entry.1 entry.2)); [|done].
    by rewrite <- app_assoc.
Qed.

Lemma isRedacted_spec (td : TemplateDetails) (p : string) :
  isRedacted td p = true ↔ p ∈ redactedFiles td.
Proof.
  unfold isRedacted. rewrite existsb_exists. split.
  - intros (x & Hx & Heq). apply String.eqb_eq in Heq. subst x.
    by apply list_elem_of_In.
  - intros Hin. exists p. split; [by apply list_elem_of_In|apply String.eqb_refl].
Qed.

(** X26.  [getTemplateImportantFiles] returns exactly the entries of
    [allFiles] whose path equals or starts with an important pattern and
    whose shown contents are not empty, in the order of [allFiles].  With
    [filterRedacted] no contents of a redacted file are returned, only the
    word REDACTED; without it every returned file is a file of
    [getTemplateFiles], contents included. *)
Theorem X26_template_important_files (td : TemplateDetails) (filterRedacted : bool) :
  let result := getTemplateImportantFiles td filterRedacted in
  (∀ f, f ∈ result ↔
        ∃ contents, (filePath f, contents) ∈ allFiles td
          ∧ (∃ pattern, pattern ∈ importantFiles td
               ∧ (filePath f = pattern ∨ String.prefix pattern (filePath f) = true))
          ∧ fileContents f = shownContents td filterRedacted (filePath f) contents
          ∧ fileContents f ≠ "")
  ∧ (filePath <$> result) `sublist_of` (allFiles td).*1
  ∧ (filterRedacted = true →
     ∀ f, f ∈ result → filePath f ∈ redactedFiles td → fileContents f = "REDACTED")
  ∧ (filterRedacted = false → result `sublist_of` getTemplateFiles td).
Proof.
  intros result.
  assert (Hres : result = omap (contribution td filterRedacted) (allFiles td)).
  { subst result. unfold getTemplateImportantFiles. by rewrite important_loop. }
  assert (Himp : ∀ p, isImportant td p = true ↔
            ∃ pattern, pattern ∈ importantFiles td
              ∧ (p = pattern ∨ String.prefix pattern p = true)).
  { intros p. unfold isImportant. rewrite existsb_exists. split.
    - intros (x & Hx & Hor). exists x. split; [by apply list_elem_of_In|].
      apply orb_true_iff in Hor as [Heq|Hpre]; [left; by apply String.eqb_eq|by right].
    - intros (x & Hx & Hor). exists x. split; [by apply list_elem_of_In|].
      apply orb_true_iff. destruct Hor as [->|Hpre]; [left; apply String.eqb_refl|by right]. }
  assert (Hmem : ∀ f, f ∈ result ↔
            ∃ contents, (filePath f, contents) ∈ allFiles td
              ∧ isImportant td (filePath f) = true
              ∧ fileContents f = shownContents td filterRedacted (filePath f) contents
              ∧ fileContents f ≠ "").
  { intros f. rewrite Hres, list_elem_of_omap. split.
    - intros ([p c] & Hin & Hc). unfold contribution in Hc. simpl in Hc.
      destruct (isImportant td p) eqn:Hp; [|done].
      destruct (truthy (shownContents td filterRedacted p c)) eqn:Ht; [|done].
      injection Hc as <-. simpl. exists c. repeat split; try done.
      unfold truthy in Ht. apply negb_true_iff in Ht. by apply String.eqb_neq in Ht.
    - intros (c & Hin & Hp & Hc & Hne). exists (filePath f, c). split; [done|].
      unfold contribution. simpl. rewrite Hp, <- Hc.
      assert (Ht : truthy (fileContents f) = true).
      { unfold truthy. apply negb_true_iff. by apply String.eqb_neq. }
      rewrite Ht. by destruct f. }
  split; [|split; [|split]].
  - intros f. rewrite Hmem. by setoid_rewrite Himp.
  - rewrite Hres. clear. induction (allFiles td) as [|[p c] entries IH]; [done|].
    simpl. unfold contribution at 1. simpl.
    destruct (isImportant td p); [|by apply sublist_cons].
    destruct (truthy (shownContents td filterRedacted p c)); [|by apply sublist_cons].
    simpl. by apply sublist_skip.
  - intros -> f Hf Hred. apply Hmem in Hf as (c & _ & _ & Hc & _).
    rewrite Hc. unfold shownContents. simpl.
    apply isRedacted_spec in Hred. by rewrite Hred.
  - intros ->. rewrite Hres. unfold getTemplateFiles. clear.
    induction (allFiles td) as [|[p c] entries IH]; [done|].
    simpl. unfold contribution at 1, shownContents. simpl.
    destruct (isImportant td p); [|by apply sublist_cons].
    destruct (truthy c); [|by apply sublist_cons].
    simpl. by apply sublist_skip.
Qed.

End TemplateFiles.

(** ** Batches of commands *)

Section CommandBatches.
Import Commands.
Context {A : Type}.

Lemma chunkLoop_spec (chunkSize : nat) (commands : list A) (rounds i : nat) :
  (0 < chunkSize)%nat → (length commands - i ≤ rounds)%nat →
  concat (chunkLoop rounds chunkSize commands i) = drop i commands
  ∧ Forall (fun chunk => (1 ≤ length chunk ≤ chunkSize)%nat)
           (chunkLoop rounds chunkSize commands i).
Proof.
  intros Hpos. revert i. induction rounds as [|rounds IH]; intros i Hfuel; simpl.
  - split; [|done]. rewrite drop_ge; [done|lia].
  - destruct (i <? length commands)%nat eqn:Hi.
    + apply Nat.ltb_lt in Hi.
      destruct (IH (i + chunkSize)%nat) as [Hcat Hall]; [lia|].
      split.
      * simpl. rewrite Hcat. unfold slice.
        replace (i + chunkSize - i)%nat with chunkSize by lia.
        rewrite <- (take_drop chunkSize (drop i commands)) at 2.
        f_equal. rewrite drop_drop. done.
      * constructor; [|done]. unfold slice.
        rewrite length_take, length_drop. lia.
    + apply Nat.ltb_ge in Hi. split; [|done]. rewrite drop_ge; [done|lia].
Qed.

(** X27.  With a positive chunk size the batches of [executeCommands]
    are a partition of the commands: concatenated in order they give the
    commands back, no batch is empty and none is longer than the chunk
    size. *)
Theorem X27_command_chunks_partition (chunkSize : nat) (commands : list A) :
  (0 < chunkSize)%nat →
  concat (commandChunks chunkSize commands) = commands
  ∧ Forall (fun chunk => (1 ≤ length chunk ≤ chunkSize)%nat)
           (commandChunks chunkSize commands).
Proof.
  intros Hpos. unfold commandChunks.
  destruct (chunkLoop_spec chunkSize commands (length commands) 0 Hpos) as [Hcat Hall];
    [lia|].
  by rewrite Hcat.
Qed.

End CommandBatches.

Lemma X27_command_chunks_partition_witness :
  concat (Commands.commandChunks 2 ["bun install"; "bun add zod"; "bun run build"])
  = ["bun install"; "bun add zod"; "bun run build"]
  ∧ Forall (fun chunk => (1 ≤ length chunk ≤ 2)%nat)
           (Commands.commandChunks 2 ["bun install"; "bun add zod"; "bun run build"]).
Proof.
  apply (X27_command_chunks_partition 2 ["bun install"; "bun add zod"; "bun run build"]).
  lia.
Defined.
